(** * DocumentManagement sample (samples/DocumentManagement/Program.py)

    A shallow embedding of the sample runner: the static methods of
    [DocumentManagement], the [IDisposable] context manager, [run_sample]
    and the [__main__] block, over an abstract document-database client. *)

From Stdlib Require Import Ascii.
From stdpp Require Import gmap strings list fin_maps.

Set Warnings "-register-all,-clear-no-such-hyp".
Open Scope string_scope.
Open Scope list_scope.
Open Scope Z_scope.

(** ** Python values *)

(** JSON-like values held in records.  A float is kept as the decimal
    literal of the source ([419.4589] is [VFloat 4194589 4], that is
    4194589 / 10^4); no arithmetic is done on floats in this program. *)
Inductive value :=
| VNone
| VInt (z : Z)
| VFloat (digits : Z) (scale : nat)
| VStr (s : string)
| VList (l : list value)
| VDict (d : gmap string value).

(** A record (a Python dict with string keys). *)
Abbreviation dict := (gmap string value).

(** [d.get(k)]: the value under [k], or [None]. *)
Definition dict_get (d : dict) (k : string) : value :=
  match d !! k with
  | Some v => v
  | None => VNone
  end.

(** Truth value of an object, as [with] tests the result of [__exit__]. *)
Definition truthy (v : value) : bool :=
  match v with
  | VNone => false
  | VInt z => negb (z =? 0)
  | VFloat m _ => negb (m =? 0)
  | VStr s => negb (String.eqb s "")
  | VList l => match l with [] => false | _ => true end
  | VDict d => negb (bool_decide (map_to_list d = []))
  end.

(** The newline character of ['\n'] in the source's string literals. *)
Definition nl : string := String "010"%char EmptyString.

(** ** Exceptions *)

(** The exceptions this program can meet.  [DocumentDBError] and
    [HTTPFailure] are the service errors of [pydocumentdb.errors] that carry
    the status code of the failed request, and [HTTPFailure] is a subclass of
    [DocumentDBError].  [ServiceError] is an instance of [DocumentDBError]
    that has no [status_code] attribute: the class raised bare, or one of
    its subclasses that do not set it, named by [cls] ([JSONParseFailure],
    [UnexpectedDataType]).  [KeyboardInterrupt] and [SystemExit] derive from
    [BaseException] only, every other one from [Exception]. *)
Inductive exn :=
| DocumentDBError (status : Z)
| HTTPFailure (status : Z)
| ServiceError (cls : string)
| AttributeError (name : string)
| KeyError (key : string)
| IndexError
| TypeError
| OtherException (name : string) (args : list value)
| KeyboardInterrupt
| SystemExit.

(** [isinstance(e, errors.DocumentDBError)] *)
Definition isinstance_DocumentDBError (e : exn) : bool :=
  match e with
  | DocumentDBError _ | HTTPFailure _ | ServiceError _ => true
  | _ => false
  end.

(** [isinstance(e, errors.HTTPFailure)] *)
Definition isinstance_HTTPFailure (e : exn) : bool :=
  match e with
  | HTTPFailure _ => true
  | _ => false
  end.

(** [isinstance(e, Exception)] *)
Definition isinstance_Exception (e : exn) : bool :=
  match e with
  | KeyboardInterrupt | SystemExit => false
  | _ => true
  end.

(** The [status_code] attribute, where the exception has one. *)
Definition status_code (e : exn) : option Z :=
  match e with
  | DocumentDBError s | HTTPFailure s => Some s
  | _ => None
  end.

(** ** Observable events *)

(** The methods of the client object, with the arguments of a call. *)
Inductive client_call :=
| CDocumentClient (host : string) (auth : value)
| CCreateDatabase (database : value)
| CCreateCollection (database_link : string) (collection : value)
| CCreateDocument (collection_link : string) (document : value)
| CReadDocument (document_link : string) (options : value)
| CReadDocuments (collection_link : string) (options : value)
| CQueryDocuments (collection_link : string) (query : value)
| CReplaceDocument (document_link : string) (document : value)
| CClose.

(** What is substituted for [{0}] in a printed line. *)
Inductive printed :=
| PVal (v : value)
| PArgs (e : exn).

(** [print(t.format(a))] is recorded as [Print t [a]], [print(t)] as
    [Print t []]; a call of a client method as [Call]. *)
Inductive event :=
| Print (template : string) (args : list printed)
| Call (c : client_call).

(** ** The interpreter state and its monad *)

Inductive result (A : Type) :=
| Ok (a : A)
| Raise (e : exn).
Arguments Ok {A} a.
Arguments Raise {A} e.

(** A reference to a record object: its index on the heap. *)
Abbreviation loc := nat.

Record state (S : Type) := State {
  service : S;
  heap : list dict
}.
Arguments State {S} _ _.
Arguments service {S} _.
Arguments heap {S} _.

Record outcome (S A : Type) := Outcome {
  res : result A;
  final : state S;
  trace : list event
}.
Arguments Outcome {S A} _ _ _.
Arguments res {S A} _.
Arguments final {S A} _.
Arguments trace {S A} _.

Definition M (S A : Type) : Type := state S -> outcome S A.

Definition ret {S A} (a : A) : M S A :=
  fun s => Outcome (Ok a) s [].

Definition raise {S A} (e : exn) : M S A :=
  fun s => Outcome (Raise e) s [].

Definition bind {S A B} (m : M S A) (f : A -> M S B) : M S B :=
  fun s =>
    match m s with
    | Outcome (Ok a) s' t =>
        match f a s' with
        | Outcome r s'' t' => Outcome r s'' (t ++ t')
        end
    | Outcome (Raise e) s' t => Outcome (Raise e) s' t
    end.

Declare Scope py_scope.
Delimit Scope py_scope with py.
Notation "x <- m ;; k" := (bind m (fun x => k))
  (at level 100, m at next level, right associativity) : py_scope.
Notation "m ;; k" := (bind m (fun _ => k))
  (at level 100, right associativity) : py_scope.
Open Scope py_scope.

(** [print(...)] *)
Definition print {S} (template : string) (args : list printed) : M S unit :=
  fun s => Outcome (Ok tt) s [Print template args].

(** [try: body  except <class> as e: handler e] *)
Definition try_except {S A} (body : M S A) (catches : exn -> bool)
    (handler : exn -> M S A) : M S A :=
  fun s =>
    match body s with
    | Outcome (Ok a) s' t => Outcome (Ok a) s' t
    | Outcome (Raise e) s' t =>
        if catches e then
          match handler e s' with
          | Outcome r s'' t' => Outcome r s'' (t ++ t')
          end
        else Outcome (Raise e) s' t
    end.

(** [try: body  finally: fin] *)
Definition try_finally {S A} (body : M S A) (fin : M S unit) : M S A :=
  fun s =>
    match body s with
    | Outcome r s' t =>
        match fin s' with
        | Outcome (Ok _) s'' t' => Outcome r s'' (t ++ t')
        | Outcome (Raise e) s'' t' => Outcome (Raise e) s'' (t ++ t')
        end
    end.

(** [with mgr as x: body]: [__enter__] gives [x]; [__exit__] runs when the
    body ends, normally or not, and a true result suppresses the exception
    of the body. *)
Definition with_statement {S T X} (mgr : M S T) (enter : T -> M S X)
    (exit_ : T -> option exn -> M S value) (body : X -> M S value) : M S value :=
  mgr_ <- mgr ;;
  x <- enter mgr_ ;;
  fun s =>
    match body x s with
    | Outcome (Ok _) s' t =>
        match exit_ mgr_ None s' with
        | Outcome (Ok _) s'' t' => Outcome (Ok VNone) s'' (t ++ t')
        | Outcome (Raise e') s'' t' => Outcome (Raise e') s'' (t ++ t')
        end
    | Outcome (Raise e) s' t =>
        match exit_ mgr_ (Some e) s' with
        | Outcome (Ok v) s'' t' =>
            Outcome (if truthy v then Ok VNone else Raise e) s'' (t ++ t')
        | Outcome (Raise e') s'' t' => Outcome (Raise e') s'' (t ++ t')
        end
    end.

(** [for x in l: body x] *)
Fixpoint for_each {S X} (l : list X) (body : X -> M S unit) : M S unit :=
  match l with
  | [] => ret tt
  | x :: l' => body x ;; for_each l' body
  end.

(** A new record object on the heap. *)
Definition alloc {S} (d : dict) : M S loc :=
  fun s => Outcome (Ok (length (heap s))) (State (service s) (heap s ++ [d])) [].

(** The record behind a reference.  Every reference the program holds comes
    from [alloc], so the [None] branch is never taken by it. *)
Definition deref {S} (r : loc) : M S dict :=
  fun s =>
    match heap s !! r with
    | Some d => Outcome (Ok d) s []
    | None => Outcome (Raise (OtherException "SystemError" [])) s []
    end.

(** [order[k] = v], on the object itself. *)
Definition setitem {S} (r : loc) (k : string) (v : value) : M S unit :=
  fun s =>
    match heap s !! r with
    | Some d => Outcome (Ok tt) (State (service s) (<[r := <[k := v]> d]> (heap s))) []
    | None => Outcome (Raise (OtherException "SystemError" [])) s []
    end.

(** [order[k]]: [KeyError] when the key is missing. *)
Definition getitem {S} (d : dict) (k : string) : M S value :=
  match d !! k with
  | Some v => ret v
  | None => raise (KeyError k)
  end.

(** [a + b] where [a] is a [str]: [TypeError] unless [b] is one too. *)
Definition str_add {S} (a : string) (b : value) : M S string :=
  match b with
  | VStr s => ret (a +:+ s)
  | _ => raise TypeError
  end.

(** [documentlist[0]] *)
Definition first_item {S X} (l : list X) : M S X :=
  match l with
  | x :: _ => ret x
  | [] => raise IndexError
  end.

(** ** Configuration and the modules the script imports *)

(** What the script reads from outside the repository's source: the entries
    of [cfg.settings], the two enumeration constants of
    [pydocumentdb.documents], the locale's ['%c'] rendering of a date, the
    wall clock as [datetime.datetime.now().strftime('%c')] renders it, and the
    [message] attribute of a caught [HTTPFailure] ([None] where the exception
    object has no such attribute). *)
Record Env := {
  HOST : string;
  MASTER_KEY : string;
  DATABASE_ID : string;
  COLLECTION_ID : string;
  IndexKind_Range : value;
  DataType_Number : value;
  strftime_c : Z -> Z -> Z -> string;
  now_c : string;
  message_attr : exn -> option value
}.

(** The client object of [pydocumentdb.document_client], over the state [S]
    of the service behind it.  A method either returns or raises, and moves
    the service to a new state.  [ReadDocuments] and [QueryDocuments] give
    the records their iterable yields when it is consumed to its end (or the
    exception that ends the iteration).  [close] is the method the docstring
    of [IDisposable] expects of the wrapped object. *)
Module document_client.
Record Client (S : Type) := {
  DocumentClient : string -> value -> S -> result unit * S;
  CreateDatabase : value -> S -> result value * S;
  CreateCollection : string -> value -> S -> result value * S;
  CreateDocument : string -> value -> S -> result value * S;
  ReadDocument : string -> value -> S -> result value * S;
  ReadDocuments : string -> value -> S -> result (list dict) * S;
  QueryDocuments : string -> value -> S -> result (list dict) * S;
  ReplaceDocument : string -> value -> S -> result dict * S;
  last_response_headers : S -> dict;
  close : S -> result unit * S
}.
Arguments DocumentClient {S} _ _ _ _.
Arguments CreateDatabase {S} _ _ _.
Arguments CreateCollection {S} _ _ _ _.
Arguments CreateDocument {S} _ _ _ _.
Arguments ReadDocument {S} _ _ _ _.
Arguments ReadDocuments {S} _ _ _ _.
Arguments QueryDocuments {S} _ _ _ _.
Arguments ReplaceDocument {S} _ _ _ _.
Arguments last_response_headers {S} _ _.
Arguments close {S} _ _.
End document_client.

Abbreviation Client := document_client.Client.

(** A call of a client method: the call is recorded, the service moves on. *)
Definition invoke {S A} (c : client_call) (op : S -> result A * S) : M S A :=
  fun s =>
    let (r, sv) := op (service s) in
    Outcome r (State sv (heap s)) [Call c].

(** [client.last_response_headers.get(k)] *)
Definition header {S} (client : Client S) (k : string) : M S value :=
  fun s => Outcome (Ok (dict_get (document_client.last_response_headers client (service s)) k)) s [].

(** [list(iterable)]: the records become objects of the program, in order. *)
Fixpoint py_list {S} (docs : list dict) : M S (list loc) :=
  match docs with
  | [] => ret []
  | d :: ds => r <- alloc d ;; rs <- py_list ds ;; ret (r :: rs)
  end.

(** The attributes of the module [datetime]: the integers [MINYEAR] and
    [MAXYEAR] and the classes [date], [datetime], [time], [timedelta] and
    [tzinfo], with [timezone] from Python 3.2 on.  The module has no
    attribute [min]: that one belongs to the classes ([datetime.datetime.min]
    and the like). *)
Inductive datetime_attr :=
| DtClass (name : string)
| DtInt (z : Z).

Definition datetime_module : list (string * datetime_attr) :=
  [("MINYEAR", DtInt 1); ("MAXYEAR", DtInt 9999);
   ("date", DtClass "date"); ("datetime", DtClass "datetime");
   ("time", DtClass "time"); ("timedelta", DtClass "timedelta");
   ("tzinfo", DtClass "tzinfo"); ("timezone", DtClass "timezone")].

Fixpoint assoc {A} (k : string) (l : list (string * A)) : option A :=
  match l with
  | [] => None
  | (k', a) :: l' => if String.eqb k k' then Some a else assoc k l'
  end.

(** [datetime.<name>] *)
Definition datetime_getattr {S} (name : string) : M S datetime_attr :=
  match assoc name datetime_module with
  | Some a => ret a
  | None => raise (AttributeError name)
  end.

(** [x.strftime('%c')] where [x] is an attribute of the module itself: the
    method of the classes [date], [datetime] and [time] needs an instance
    before the format ([TypeError]); the other classes and the integers have
    no such method. *)
Definition attr_strftime {S} (x : datetime_attr) : M S string :=
  match x with
  | DtClass c =>
      if existsb (String.eqb c) ["date"; "datetime"; "time"] then raise TypeError
      else raise (AttributeError "strftime")
  | DtInt _ => raise (AttributeError "strftime")
  end.

(** ** The script *)

Section Globals.
Variable E : Env.

Definition database_link : string := "dbs/" +:+ DATABASE_ID E.
Definition collection_link : string := (database_link +:+ "/colls/") +:+ COLLECTION_ID E.
Definition partition_key : string := "AccountNumber".
End Globals.

(** [class IDisposable] *)
Module IDisposable.
Record t (T : Type) := new { obj : T }.
Arguments new {T} _.
Arguments obj {T} _.

Definition __enter__ {S T} (self : t T) : M S T :=
  ret (obj self).

(** The body is [self = None]: it rebinds the local name and touches
    neither the wrapped object nor anything else; the method returns
    [None]. *)
Definition __exit__ {S T} (self : t T) (exception : option exn) : M S value :=
  ret VNone.
End IDisposable.

(** [class DocumentManagement] *)
Module DocumentManagement.
Section Methods.
Context {S : Type}.
Variable E : Env.

Definition collection_definition : value :=
  VDict (<["id" := VStr (COLLECTION_ID E)]>
        (<["partitionKey" := VDict {["paths" := VList [VStr "/account_number"]]}]>
        (<["indexingPolicy" :=
             VDict {["includedPaths" :=
               VList [VDict (<["path" := VStr "/*"]>
                            {["indexes" :=
                               VList [VDict (<["kind" := IndexKind_Range E]>
                                            {["dataType" := DataType_Number E]})]]})]]}]>
         ∅))).

(** The handler of both [except errors.DocumentDBError as e] blocks:
    [on_conflict] when [e.status_code == 409], otherwise
    [raise errors.HTTPFailure(e.status_code)].  On a service error that has
    no [status_code] (a [ServiceError]) the comparison itself fails with
    [AttributeError]. *)
Definition conflict_or_failure (on_conflict : M S unit) (e : exn) : M S unit :=
  match status_code e with
  | Some code => if code =? 409 then on_conflict else raise (HTTPFailure code)
  | None => raise (AttributeError "status_code")
  end.

Definition Initialize (client : Client S) : M S value :=
  print "Initializing database for samples" [] ;;
  try_except
    (invoke (CCreateDatabase (VDict {["id" := VStr (DATABASE_ID E)]}))
       (document_client.CreateDatabase client (VDict {["id" := VStr (DATABASE_ID E)]})) ;;
     print "Database with id '{0}' created" [PVal (VStr (DATABASE_ID E))])
    isinstance_DocumentDBError
    (conflict_or_failure (ret tt)) ;;
  try_except
    (invoke (CCreateCollection (database_link E) collection_definition)
       (document_client.CreateCollection client (database_link E) collection_definition) ;;
     print "Collection with id '{0}' created" [PVal (VStr (COLLECTION_ID E))])
    isinstance_DocumentDBError
    (conflict_or_failure
       (print "Collection with id '{0}' was found" [PVal (VStr (COLLECTION_ID E))])) ;;
  ret VNone.

Definition GetSalesOrder (document_id : string) : M S dict :=
  let order_date := strftime_c E 2005 1 10 in
  min_ <- datetime_getattr "min" ;;
  shipped_date <- attr_strftime min_ ;;
  ret (<["id" := VStr document_id]>
      (<["account_number" := VStr "Account1"]>
      (<["purchase_order_number" := VStr "PO18009186470"]>
      (<["order_date" := VStr order_date]>
      (<["shipped_date" := VStr shipped_date]>
      (<["subtotal" := VFloat 4194589 4]>
      (<["tax_amount" := VFloat 125838 4]>
      (<["freight" := VFloat 4723108 4]>
      (<["total_due" := VFloat 985018 3]>
      (<["items" := VList [VDict (<["order_qty" := VInt 1]>
                                 (<["product_id" := VInt 100]>
                                 (<["unit_price" := VFloat 4184589 4]>
                                 {["line_price" := VFloat 4184589 4]})))]]>
      {["ttl" := VInt (60 * 60 * 24 * 30)]})))))))))).

Definition GetSalesOrderV2 (document_id : string) : M S dict :=
  ret (<["id" := VStr document_id]>
      (<["account_number" := VStr "Account2"]>
      (<["purchase_order_number" := VStr "PO15428132599"]>
      (<["order_date" := VStr (strftime_c E 2005 7 11)]>
      (<["due_date" := VStr (strftime_c E 2005 7 21)]>
      (<["shipped_date" := VStr (strftime_c E 2005 7 15)]>
      (<["subtotal" := VFloat 6107082 3]>
      (<["tax_amount" := VFloat 5861203 4]>
      (<["freight" := VFloat 1831626 4]>
      (<["discount_amt" := VFloat 1982872 3]>
      (<["total_due" := VFloat 48933929 4]>
      (<["items" := VList [VDict (<["order_qty" := VInt 3]>
                                 (<["product_code" := VStr "A-123"]>
                                 (<["product_name" := VStr "Product 1"]>
                                 (<["currency_symbol" := VStr "$"]>
                                 (<["currecny_code" := VStr "USD"]>
                                 (<["unit_price" := VFloat 171 1]>
                                 {["line_price" := VFloat 57 1]}))))))]]>
      {["ttl" := VInt (60 * 60 * 24 * 30)]})))))))))))).

Definition CreateDocuments (client : Client S) : M S value :=
  print (nl +:+ "1.1 - Creating Documents") [] ;;
  sales_order <- GetSalesOrder "SalesOrder1" ;;
  invoke (CCreateDocument (collection_link E) (VDict sales_order))
    (document_client.CreateDocument client (collection_link E) (VDict sales_order)) ;;
  sales_order2 <- GetSalesOrderV2 "SalesOrder2" ;;
  invoke (CCreateDocument (collection_link E) (VDict sales_order2))
    (document_client.CreateDocument client (collection_link E) (VDict sales_order2)) ;;
  ret VNone.

Definition ReadDocument (client : Client S) (doc_id account_number : string) : M S value :=
  print ((nl +:+ "1.2 - Reading Document by Id") +:+ nl) [] ;;
  let options := VDict {["partitionKey" := VStr account_number]} in
  let document_link := (collection_link E +:+ "/docs/") +:+ doc_id in
  response <- invoke (CReadDocument document_link options)
                (document_client.ReadDocument client document_link options) ;;
  print "Document read by Id {0}" [PVal (VStr doc_id)] ;;
  charge <- header client "x-ms-request-charge" ;;
  print "Request Units Charge for reading a Document by Id {0}" [PVal charge] ;;
  ret VNone.

Definition ReadDocuments (client : Client S) : M S value :=
  print ((nl +:+ "1.3 - Reading all documents in a collection") +:+ nl) [] ;;
  let options := VDict {["maxItemCount" := VInt 10]} in
  docs <- invoke (CReadDocuments (collection_link E) options)
            (document_client.ReadDocuments client (collection_link E) options) ;;
  documentlist <- py_list docs ;;
  for_each documentlist
    (fun doc => d <- deref doc ;; print "Document Id: {0}" [PVal (dict_get d "id")]) ;;
  ret VNone.

(** The text of the query: the account number is spliced in between two
    single quotes. *)
Definition query_text (account_number : string) : string :=
  ("SELECT * FROM root r WHERE r.account_number='" +:+ account_number) +:+ "'".

Definition QueryDocuments (client : Client S) (account_number : string) : M S loc :=
  print (nl +:+ "1.4 - Querying for a document using its AccountNumber property") [] ;;
  let query := VDict {["query" := VStr (query_text account_number)]} in
  docs <- invoke (CQueryDocuments (collection_link E) query)
            (document_client.QueryDocuments client (collection_link E) query) ;;
  documentlist <- py_list docs ;;
  print "Found document with account_number: {0}" [PVal (VStr account_number)] ;;
  first_item documentlist.

Definition ReplaceDocument (client : Client S) (order : loc) : M S value :=
  print (nl +:+ "1.5 - Replacing a document using its Id") [] ;;
  setitem order "shipped_date" (VStr (now_c E)) ;;
  d <- deref order ;;
  id <- getitem d "id" ;;
  document_link <- str_add (collection_link E +:+ "/docs/") id ;;
  result <- invoke (CReplaceDocument document_link (VDict d))
              (document_client.ReplaceDocument client document_link (VDict d)) ;;
  charge <- header client "x-ms-request-charge" ;;
  print "Request charge of replace operation: {0}" [PVal charge] ;;
  shipped <- getitem result "shipped_date" ;;
  print "Shipped date of updated document: {0}" [PVal shipped] ;;
  ret VNone.
End Methods.
End DocumentManagement.

Section Script.
Context {S : Type}.
Variable E : Env.
Variable connection : Client S.

(** [e.message] *)
Definition getattr_message (e : exn) : M S value :=
  match message_attr E e with
  | Some v => ret v
  | None => raise (AttributeError "message")
  end.

(** [document_client.DocumentClient(HOST, {'masterKey': MASTER_KEY})] *)
Definition new_client : M S (Client S) :=
  let auth := VDict {["masterKey" := VStr (MASTER_KEY E)]} in
  invoke (CDocumentClient (HOST E) auth)
    (document_client.DocumentClient connection (HOST E) auth) ;;
  ret connection.

(** The body of the [try] statement of [run_sample]; the call of
    [CreateDocuments] is commented out in the source. *)
Definition sample_steps (client : Client S) : M S value :=
  DocumentManagement.Initialize E client ;;
  DocumentManagement.ReadDocument E client "SalesOrder1" "Account1" ;;
  DocumentManagement.ReadDocuments E client ;;
  order <- DocumentManagement.QueryDocuments E client "Account1" ;;
  DocumentManagement.ReplaceDocument E client order.

Definition run_sample : M S value :=
  with_statement
    (client <- new_client ;; ret (IDisposable.new client))
    IDisposable.__enter__
    IDisposable.__exit__
    (fun client =>
       try_finally
         (try_except
            (sample_steps client)
            isinstance_HTTPFailure
            (fun e =>
               msg <- getattr_message e ;;
               print (nl +:+ "run_sample has caught an error. {0}") [PVal msg] ;;
               ret VNone))
         (print (nl +:+ "run_sample done") [])).

(** The [if __name__ == '__main__':] block, the script being run. *)
Definition main : M S value :=
  try_except
    (run_sample ;; ret VNone)
    isinstance_Exception
    (fun e =>
       print "Top level Error: args:{0}, message:N/A" [PArgs e] ;;
       ret VNone).
End Script.

(** ** What a run shows

    Notions the statements below are made of. *)

(** Three events no run of [run_sample] shows: [close] called on the client,
    a document submitted for creation, the banner of [CreateDocuments]. *)
Definition shown_by_run_sample (e : event) : bool :=
  match e with
  | Call CClose => false
  | Call (CCreateDocument _ _) => false
  | Print t _ => negb (String.eqb t (nl +:+ "1.1 - Creating Documents"))
  | _ => true
  end.

(** The line the loop of [ReadDocuments] prints for a record. *)
Definition id_line (d : dict) : event :=
  Print "Document Id: {0}" [PVal (dict_get d "id")].

(** The record as [ReplaceDocument] leaves it. *)
Definition shipped_now (E : Env) (d : dict) : dict :=
  <["shipped_date" := VStr (now_c E)]> d.

(** The methods of [DocumentManagement] that the script can call, each known
    in the output by the line it prints first. *)
Inductive method :=
| MInitialize
| MCreateDocuments
| MReadDocument
| MReadDocuments
| MQueryDocuments
| MReplaceDocument.

Definition banner_of (m : method) : string :=
  match m with
  | MInitialize => "Initializing database for samples"
  | MCreateDocuments => nl +:+ "1.1 - Creating Documents"
  | MReadDocument => (nl +:+ "1.2 - Reading Document by Id") +:+ nl
  | MReadDocuments => (nl +:+ "1.3 - Reading all documents in a collection") +:+ nl
  | MQueryDocuments => nl +:+ "1.4 - Querying for a document using its AccountNumber property"
  | MReplaceDocument => nl +:+ "1.5 - Replacing a document using its Id"
  end.

Definition method_of_banner (t : string) : option method :=
  List.find (fun m => String.eqb t (banner_of m))
    [MInitialize; MCreateDocuments; MReadDocument; MReadDocuments;
     MQueryDocuments; MReplaceDocument].

(** The steps of a run: a method of [DocumentManagement] starts, a method of
    the client is called. *)
Inductive step :=
| Started (m : method)
| Called (c : client_call).

Definition step_of (e : event) : option step :=
  match e with
  | Call c => Some (Called c)
  | Print t [] => Started <$> method_of_banner t
  | Print _ (_ :: _) => None
  end.

Arguments step_of : simpl never.

Definition steps_of (t : list event) : list step := omap step_of t.

Definition started_methods (l : list step) : list method :=
  omap (fun x => match x with Started m => Some m | Called _ => None end) l.

(** The steps of a run of [run_sample] in which nothing fails, up to the
    record [ReplaceDocument] submits and the link it submits it under. *)
Definition plan (E : Env) (link : string) (doc : value) : list step :=
  [ Called (CDocumentClient (HOST E) (VDict {["masterKey" := VStr (MASTER_KEY E)]}));
    Started MInitialize;
    Called (CCreateDatabase (VDict {["id" := VStr (DATABASE_ID E)]}));
    Called (CCreateCollection (database_link E) (DocumentManagement.collection_definition E));
    Started MReadDocument;
    Called (CReadDocument ((collection_link E +:+ "/docs/") +:+ "SalesOrder1")
              (VDict {["partitionKey" := VStr "Account1"]}));
    Started MReadDocuments;
    Called (CReadDocuments (collection_link E) (VDict {["maxItemCount" := VInt 10]}));
    Started MQueryDocuments;
    Called (CQueryDocuments (collection_link E)
              (VDict {["query" := VStr (DocumentManagement.query_text "Account1")]}));
    Started MReplaceDocument;
    Called (CReplaceDocument link doc) ].

(** The methods [run_sample] calls, in the order of its source. *)
Definition fixed_sequence : list method :=
  [MInitialize; MReadDocument; MReadDocuments; MQueryDocuments; MReplaceDocument].

(** [emits_only P m]: whatever the state, every event [m] emits satisfies
    [P]. *)
Definition emits_only {S A} (P : event -> Prop) (m : M S A) : Prop :=
  forall s, Forall P (trace (m s)).

(** [exactly L m]: the steps of [m] are [L], however it ends. *)
Definition exactly {S A} (L : list step) (m : M S A) : Prop :=
  forall s, steps_of (trace (m s)) = L.

(** [starts L m]: the steps of [m] are the beginning of [L], and all of [L]
    when [m] ends normally. *)
Definition starts {S A} (L : list step) (m : M S A) : Prop :=
  forall s, steps_of (trace (m s)) `prefix_of` L /\
            (forall a, res (m s) = Ok a -> steps_of (trace (m s)) = L).





(** ** Services that report conflicts

    The client of a service on which creating what exists is reported as a
    conflict: [databases] and [collections] say what exists in a state of
    the service (databases by id, collections by database link and id).
    Creating a database that does not exist succeeds and adds it, creating
    one that exists raises a service error of status 409 and adds nothing;
    the same for a collection in a database that exists. *)

(** The [id] of the body of a request. *)
Definition id_of (v : value) : option string :=
  match v with
  | VDict d => match d !! "id" with Some (VStr i) => Some i | _ => None end
  | _ => None
  end.

(** A service error of status 409. *)
Definition is_conflict (e : exn) : Prop :=
  isinstance_DocumentDBError e = true /\ status_code e = Some 409.

Record conflict_reporting {S} (client : Client S)
    (databases : S -> gset string) (collections : S -> gset (string * string)) : Prop := {
  database_created : forall sv i,
    i ∉ databases sv ->
    exists v sv',
      document_client.CreateDatabase client (VDict {["id" := VStr i]}) sv = (Ok v, sv') /\
      databases sv' = {[i]} ∪ databases sv /\ collections sv' = collections sv;
  database_conflict : forall sv i,
    i ∈ databases sv ->
    exists e sv',
      document_client.CreateDatabase client (VDict {["id" := VStr i]}) sv = (Raise e, sv') /\
      is_conflict e /\
      databases sv' = databases sv /\ collections sv' = collections sv;
  collection_created : forall sv db body i,
    db ∈ databases sv -> id_of body = Some i ->
    ("dbs/" +:+ db, i) ∉ collections sv ->
    exists v sv',
      document_client.CreateCollection client ("dbs/" +:+ db) body sv = (Ok v, sv') /\
      databases sv' = databases sv /\
      collections sv' = {[("dbs/" +:+ db, i)]} ∪ collections sv;
  collection_conflict : forall sv db body i,
    db ∈ databases sv -> id_of body = Some i ->
    ("dbs/" +:+ db, i) ∈ collections sv ->
    exists e sv',
      document_client.CreateCollection client ("dbs/" +:+ db) body sv = (Raise e, sv') /\
      is_conflict e /\
      databases sv' = databases sv /\ collections sv' = collections sv
}.

(** What either [try] block of [Initialize] makes of the client's answer: it
    goes on after a success or a service error of status 409, wraps the
    status of any other service error that has one in an [HTTPFailure], ends
    in [AttributeError] on a service error that has none, and lets anything
    else through. *)
Definition setup_step (r : result value) : result unit :=
  match r with
  | Ok _ => Ok tt
  | Raise e =>
      if isinstance_DocumentDBError e then
        match status_code e with
        | Some code => if code =? 409 then Ok tt else Raise (HTTPFailure code)
        | None => Raise (AttributeError "status_code")
        end
      else Raise e
  end.

(** The outcome is a service error that carries the status [code]. *)
Definition fails_with_status {S A} (o : outcome S A) (code : Z) : Prop :=
  exists e, res o = Raise e /\ isinstance_DocumentDBError e = true /\ status_code e = Some code.

(** ** An in-memory service

    A small stand-in for the document service, for the concrete runs below:
    databases by id, collections by database link and id, documents by
    collection link.  Creating what exists is refused with status 409,
    addressing what does not exist with 404, a malformed request with 400. *)
Module Mock.
Record store := Store {
  dbs : gset string;
  colls : gset (string * string);
  docs : list (string * dict);
  closed : bool
}.

Definition empty : store := Store ∅ ∅ [] false.

Definition db_links (st : store) : gset string :=
  set_map (fun d => "dbs/" +:+ d) (dbs st).

Definition has_link (link : string) (entry : string * dict) : bool :=
  match id_of (VDict entry.2) with
  | Some i => String.eqb ((entry.1 +:+ "/docs/") +:+ i) link
  | None => false
  end.

Definition in_collection (link : string) (entry : string * dict) : bool :=
  String.eqb entry.1 link.

(** A document answers a query when the query is the one the script builds
    from the document's own account number. *)
Definition answers (q : string) (entry : string * dict) : bool :=
  match entry.2 !! "account_number" with
  | Some (VStr a) =>
      String.eqb q (("SELECT * FROM root r WHERE r.account_number='" +:+ a) +:+ "'")
  | _ => false
  end.

Definition CreateDatabase (body : value) (st : store) : result value * store :=
  match id_of body with
  | Some i =>
      if bool_decide (i ∈ dbs st) then (Raise (HTTPFailure 409), st)
      else (Ok body, Store ({[i]} ∪ dbs st) (colls st) (docs st) (closed st))
  | None => (Raise (HTTPFailure 400), st)
  end.

Definition CreateCollection (link : string) (body : value) (st : store)
    : result value * store :=
  match id_of body with
  | Some i =>
      if negb (bool_decide (link ∈ db_links st)) then (Raise (HTTPFailure 404), st)
      else if bool_decide ((link, i) ∈ colls st) then (Raise (HTTPFailure 409), st)
      else (Ok body, Store (dbs st) ({[(link, i)]} ∪ colls st) (docs st) (closed st))
  | None => (Raise (HTTPFailure 400), st)
  end.

Definition CreateDocument (link : string) (body : value) (st : store)
    : result value * store :=
  match body, id_of body with
  | VDict d, Some i =>
      if existsb (has_link ((link +:+ "/docs/") +:+ i)) (docs st)
      then (Raise (HTTPFailure 409), st)
      else (Ok body, Store (dbs st) (colls st) (docs st ++ [(link, d)]) (closed st))
  | _, _ => (Raise (HTTPFailure 400), st)
  end.

Definition ReadDocument (link : string) (options : value) (st : store)
    : result value * store :=
  match filter (fun e => has_link link e = true) (docs st) with
  | e :: _ => (Ok (VDict e.2), st)
  | [] => (Raise (HTTPFailure 404), st)
  end.

Definition ReadDocuments (link : string) (options : value) (st : store)
    : result (list dict) * store :=
  (Ok ((fun e => e.2) <$> filter (fun e => in_collection link e = true) (docs st)), st).

Definition QueryDocuments (link : string) (query : value) (st : store)
    : result (list dict) * store :=
  match query with
  | VDict q =>
      match q !! "query" with
      | Some (VStr text) =>
          (Ok ((fun e => e.2) <$>
                 filter (fun e => in_collection link e && answers text e = true) (docs st)),
           st)
      | _ => (Raise (HTTPFailure 400), st)
      end
  | _ => (Raise (HTTPFailure 400), st)
  end.

Definition ReplaceDocument (link : string) (body : value) (st : store)
    : result dict * store :=
  match body with
  | VDict d =>
      if existsb (has_link link) (docs st) then
        (Ok d, Store (dbs st) (colls st)
                 ((fun e => if has_link link e then (e.1, d) else e) <$> docs st)
                 (closed st))
      else (Raise (HTTPFailure 404), st)
  | _ => (Raise (HTTPFailure 400), st)
  end.

Definition client : Client store := {|
  document_client.DocumentClient := fun _ _ st => (Ok tt, st);
  document_client.CreateDatabase := CreateDatabase;
  document_client.CreateCollection := CreateCollection;
  document_client.CreateDocument := CreateDocument;
  document_client.ReadDocument := ReadDocument;
  document_client.ReadDocuments := ReadDocuments;
  document_client.QueryDocuments := QueryDocuments;
  document_client.ReplaceDocument := ReplaceDocument;
  document_client.last_response_headers := fun _ => {["x-ms-request-charge" := VStr "1"]};
  document_client.close := fun st => (Ok tt, Store (dbs st) (colls st) (docs st) true)
|}.

(** A configuration for the concrete runs. *)
Definition env : Env := {|
  HOST := "https://localhost:443/";
  MASTER_KEY := "key";
  DATABASE_ID := "db";
  COLLECTION_ID := "coll";
  IndexKind_Range := VStr "Range";
  DataType_Number := VStr "Number";
  strftime_c := fun _ _ _ => "Mon Jan 10 00:00:00 2005";
  now_c := "Wed Nov  4 12:00:00 2026";
  message_attr := fun e =>
    match e with
    | HTTPFailure _ => Some (VStr "Status code")
    | _ => None
    end
|}.

(** An order as the service stores it. *)
Definition order1 : dict :=
  <["id" := VStr "SalesOrder1"]>
  (<["account_number" := VStr "Account1"]>
  {["shipped_date" := VStr "Mon Jan  1 00:00:00 0001"]}).

Definition seeded : store :=
  Store {["db"]} {[("dbs/db", "coll")]} [("dbs/db/colls/coll", order1)] false.

(** The same order once it has been replaced at the time of [env]. *)
Definition shipped_order : dict :=
  <["shipped_date" := VStr "Wed Nov  4 12:00:00 2026"]> order1.

(** A collection of 25 records. *)
Definition numbered (n : nat) : dict :=
  <["id" := VInt (Z.of_nat n)]> {["account_number" := VStr "Account1"]}.

Definition crowded : store :=
  Store {["db"]} {[("dbs/db", "coll")]}
    ((fun n => ("dbs/db/colls/coll", numbered n)) <$> seq 0 25) false.

(** A collection whose one order belongs to another account. *)
Definition other_account : store :=
  Store {["db"]} {[("dbs/db", "coll")]}
    [("dbs/db/colls/coll", <["account_number" := VStr "Account2"]> order1)] false.

(** The client when the user interrupts the first request of the run. *)
Definition interrupted : Client store := {|
  document_client.DocumentClient := document_client.DocumentClient client;
  document_client.CreateDatabase := fun _ st => (Raise KeyboardInterrupt, st);
  document_client.CreateCollection := CreateCollection;
  document_client.CreateDocument := CreateDocument;
  document_client.ReadDocument := ReadDocument;
  document_client.ReadDocuments := ReadDocuments;
  document_client.QueryDocuments := QueryDocuments;
  document_client.ReplaceDocument := ReplaceDocument;
  document_client.last_response_headers := document_client.last_response_headers client;
  document_client.close := document_client.close client
|}.

(** The client of a service that is out of order: every request fails
    with status 503. *)
Definition unavailable : Client store := {|
  document_client.DocumentClient := document_client.DocumentClient client;
  document_client.CreateDatabase := fun _ st => (Raise (HTTPFailure 503), st);
  document_client.CreateCollection := fun _ _ st => (Raise (HTTPFailure 503), st);
  document_client.CreateDocument := fun _ _ st => (Raise (HTTPFailure 503), st);
  document_client.ReadDocument := fun _ _ st => (Raise (HTTPFailure 503), st);
  document_client.ReadDocuments := fun _ _ st => (Raise (HTTPFailure 503), st);
  document_client.QueryDocuments := fun _ _ st => (Raise (HTTPFailure 503), st);
  document_client.ReplaceDocument := fun _ _ st => (Raise (HTTPFailure 503), st);
  document_client.last_response_headers := document_client.last_response_headers client;
  document_client.close := document_client.close client
|}.

(** The client of a service whose answer to the creation of a database
    cannot be parsed: the request fails with a service error that has no
    status. *)
Definition garbled : Client store := {|
  document_client.DocumentClient := document_client.DocumentClient client;
  document_client.CreateDatabase := fun _ st => (Raise (ServiceError "JSONParseFailure"), st);
  document_client.CreateCollection := CreateCollection;
  document_client.CreateDocument := CreateDocument;
  document_client.ReadDocument := ReadDocument;
  document_client.ReadDocuments := ReadDocuments;
  document_client.QueryDocuments := QueryDocuments;
  document_client.ReplaceDocument := ReplaceDocument;
  document_client.last_response_headers := document_client.last_response_headers client;
  document_client.close := document_client.close client
|}.

(** A configuration in which a caught [HTTPFailure] has no [message]
    attribute (exception objects have none from Python 3 on unless the class
    defines it). *)
Definition env_without_message : Env := {|
  HOST := HOST env;
  MASTER_KEY := MASTER_KEY env;
  DATABASE_ID := DATABASE_ID env;
  COLLECTION_ID := COLLECTION_ID env;
  IndexKind_Range := IndexKind_Range env;
  DataType_Number := DataType_Number env;
  strftime_c := strftime_c env;
  now_c := now_c env;
  message_attr := fun _ => None
|}.

(** An order that has no [id]. *)
Definition anonymous_order : dict :=
  {["account_number" := VStr "Account1"]}.

(** The client of a service that answers a replacement with the bare
    resource id, not with the record. *)
Definition terse : Client store := {|
  document_client.DocumentClient := document_client.DocumentClient client;
  document_client.CreateDatabase := CreateDatabase;
  document_client.CreateCollection := CreateCollection;
  document_client.CreateDocument := CreateDocument;
  document_client.ReadDocument := ReadDocument;
  document_client.ReadDocuments := ReadDocuments;
  document_client.QueryDocuments := QueryDocuments;
  document_client.ReplaceDocument := fun link body st =>
    match ReplaceDocument link body st with
    | (Ok d, st') => (Ok {["id" := dict_get d "id"]}, st')
    | (Raise e, st') => (Raise e, st')
    end;
  document_client.last_response_headers := document_client.last_response_headers client;
  document_client.close := document_client.close client
|}.
End Mock.

(** * Properties *)

(** ** What a computation can emit *)

Section Only.
Context {S : Type} (P : event -> Prop).

Local Abbreviation only := (@emits_only S _ P).

Lemma only_ret {A} (a : A) : only (ret a).
Proof. intros s. constructor. Qed.

Lemma only_raise {A} (e : exn) : only (@raise S A e).
Proof. intros s. constructor. Qed.

Lemma only_bind {A B} (m : M S A) (f : A -> M S B) :
  only m -> (forall a, only (f a)) -> only (bind m f).
Proof.
  intros Hm Hf s. unfold bind. specialize (Hm s).
  destruct (m s) as [[a|e] s' t]; [|done].
  specialize (Hf a s'). destruct (f a s') as [r s'' t'].
  apply Forall_app. done.
Qed.

Lemma only_print t args : P (Print t args) -> only (@print S t args).
Proof. intros H s. by repeat constructor. Qed.

Lemma only_invoke {A} c (op : S -> result A * S) : P (Call c) -> only (invoke c op).
Proof. intros H s. unfold invoke. destruct (op (service s)). by repeat constructor. Qed.

Lemma only_header (client : Client S) k : only (header client k).
Proof. intros s. constructor. Qed.

Lemma only_alloc d : only (@alloc S d).
Proof. intros s. constructor. Qed.

Lemma only_deref r : only (@deref S r).
Proof. intros s. unfold deref. destruct (heap s !! r); constructor. Qed.

Lemma only_setitem r k v : only (@setitem S r k v).
Proof. intros s. unfold setitem. destruct (heap s !! r); constructor. Qed.

Lemma only_getitem d k : only (@getitem S d k).
Proof. unfold getitem. destruct (d !! k); [apply only_ret | apply only_raise]. Qed.

Lemma only_str_add a b : only (@str_add S a b).
Proof. destruct b; first [apply only_ret | apply only_raise]. Qed.

Lemma only_first_item {X} (l : list X) : only (@first_item S X l).
Proof. destruct l; [apply only_raise | apply only_ret]. Qed.

Lemma only_py_list docs : only (@py_list S docs).
Proof.
  induction docs as [|d ds IH]; simpl; [apply only_ret|].
  apply only_bind; [apply only_alloc|]. intros r.
  apply only_bind; [apply IH|]. intros rs. apply only_ret.
Qed.

Lemma only_for_each {X} (l : list X) (body : X -> M S unit) :
  (forall x, only (body x)) -> only (for_each l body).
Proof.
  intros Hb. induction l as [|x l IH]; simpl; [apply only_ret|].
  apply only_bind; [apply Hb | intros _; apply IH].
Qed.

Lemma only_try_except {A} (body : M S A) catches handler :
  only body -> (forall e, only (handler e)) -> only (try_except body catches handler).
Proof.
  intros Hb Hh s. unfold try_except. specialize (Hb s).
  destruct (body s) as [[a|e] s' t]; [done|].
  destruct (catches e); [|done].
  specialize (Hh e s'). destruct (handler e s') as [r s'' t'].
  apply Forall_app. done.
Qed.

Lemma only_try_finally {A} (body : M S A) fin :
  only body -> only fin -> only (try_finally body fin).
Proof.
  intros Hb Hf s. unfold try_finally. specialize (Hb s).
  destruct (body s) as [r s' t]. specialize (Hf s').
  destruct (fin s') as [[u|e] s'' t']; apply Forall_app; done.
Qed.

Lemma only_with_statement {T X} (mgr : M S T) enter exit_ (body : X -> M S value) :
  only mgr -> (forall t, only (enter t)) -> (forall t exc, only (exit_ t exc)) ->
  (forall x, only (body x)) -> only (with_statement mgr enter exit_ body).
Proof.
  intros Hm He Hx Hb. unfold with_statement.
  apply only_bind; [done|]. intros t0.
  apply only_bind; [done|]. intros x s.
  specialize (Hb x s). destruct (body x s) as [[v|e] s' t].
  - specialize (Hx t0 None s').
    destruct (exit_ t0 None s') as [[v'|e'] s'' t']; apply Forall_app; done.
  - specialize (Hx t0 (Some e) s').
    destruct (exit_ t0 (Some e) s') as [[v'|e'] s'' t']; apply Forall_app; done.
Qed.
End Only.

(** ** What the script never does *)

Section Shown.
Context {S : Type}.
Variable E : Env.

Local Abbreviation P := (fun e : event => shown_by_run_sample e = true).

Local Ltac emits :=
  repeat first
    [ apply only_ret | apply only_raise | apply only_header
    | apply only_deref | apply only_setitem | apply only_getitem
    | apply only_str_add | apply only_first_item | apply only_py_list
    | apply only_print; reflexivity
    | apply only_invoke; reflexivity
    | apply only_bind; [|intros ?]
    | apply only_for_each; intros ?
    | apply only_try_finally
    | apply only_try_except; [|intros ?] ].

Lemma conflict_or_failure_shown on_conflict e :
  emits_only P on_conflict ->
  emits_only P (DocumentManagement.conflict_or_failure (S := S) on_conflict e).
Proof.
  intros H. unfold DocumentManagement.conflict_or_failure.
  destruct (status_code e) as [code|]; [|apply only_raise].
  destruct (code =? 409); [done | apply only_raise].
Qed.

Lemma Initialize_shown (client : Client S) :
  emits_only P (DocumentManagement.Initialize E client).
Proof.
  unfold DocumentManagement.Initialize. emits.
  - apply conflict_or_failure_shown. emits.
  - apply conflict_or_failure_shown. emits.
Qed.

Lemma ReadDocument_shown (client : Client S) doc_id account_number :
  emits_only P (DocumentManagement.ReadDocument E client doc_id account_number).
Proof. unfold DocumentManagement.ReadDocument. emits. Qed.

Lemma ReadDocuments_shown (client : Client S) :
  emits_only P (DocumentManagement.ReadDocuments E client).
Proof. unfold DocumentManagement.ReadDocuments. emits. Qed.

Lemma QueryDocuments_shown (client : Client S) account_number :
  emits_only P (DocumentManagement.QueryDocuments E client account_number).
Proof. unfold DocumentManagement.QueryDocuments. emits. Qed.

Lemma ReplaceDocument_shown (client : Client S) order :
  emits_only P (DocumentManagement.ReplaceDocument E client order).
Proof. unfold DocumentManagement.ReplaceDocument. emits. Qed.

Lemma getattr_message_shown e : emits_only P (getattr_message (S := S) E e).
Proof. unfold getattr_message. destruct (message_attr E e); emits. Qed.

Lemma run_sample_shown (client : Client S) : emits_only P (run_sample E client).
Proof.
  unfold run_sample. apply only_with_statement.
  - unfold new_client. emits.
  - intros t. unfold IDisposable.__enter__. emits.
  - intros t exc. unfold IDisposable.__exit__. emits.
  - intros c. apply only_try_finally; [|emits].
    apply only_try_except.
    + unfold sample_steps.
      apply only_bind; [apply Initialize_shown | intros _].
      apply only_bind; [apply ReadDocument_shown | intros _].
      apply only_bind; [apply ReadDocuments_shown | intros _].
      apply only_bind; [apply QueryDocuments_shown | intros order].
      apply ReplaceDocument_shown.
    + intros e. apply only_bind; [apply getattr_message_shown | intros msg]. emits.
Qed.
End Shown.

(** ** Running a computation step by step *)

Lemma bind_eq {S A B} (m : M S A) (f : A -> M S B) (s : state S) :
  bind m f s =
  match m s with
  | Outcome (Ok a) s' t =>
      match f a s' with
      | Outcome r s'' t' => Outcome r s'' (t ++ t')
      end
  | Outcome (Raise e) s' t => Outcome (Raise e) s' t
  end.
Proof. reflexivity. Qed.

Lemma print_eq {S} t args (s : state S) :
  print t args s = Outcome (Ok tt) s [Print t args].
Proof. reflexivity. Qed.

Lemma invoke_eq {S A} c (op : S -> result A * S) (s : state S) r sv :
  op (service s) = (r, sv) ->
  invoke c op s = Outcome r (State sv (heap s)) [Call c].
Proof. intros H. unfold invoke. by rewrite H. Qed.

Lemma header_eq {S} (client : Client S) k (s : state S) :
  header client k s =
  Outcome (Ok (dict_get (document_client.last_response_headers client (service s)) k)) s [].
Proof. reflexivity. Qed.

Lemma ret_eq {S A} (a : A) (s : state S) : ret a s = Outcome (Ok a) s [].
Proof. reflexivity. Qed.

Lemma raise_eq {S A} (e : exn) (s : state S) : @raise S A e s = Outcome (Raise e) s [].
Proof. reflexivity. Qed.

(** One more statement of the method under way. *)
Ltac next := rewrite bind_eq; cbv beta iota.

(** ** Records read into the program *)

Section Records.
Context {S : Type}.

(** [list(...)] puts the records on the heap one after the other and
    emits nothing. *)
Lemma py_list_spec (docs : list dict) (s : state S) :
  py_list docs s =
  Outcome (Ok (seq (length (heap s)) (length docs)))
          (State (service s) (heap s ++ docs)) [].
Proof.
  revert s. induction docs as [|d ds IH]; intros [sv h]; simpl.
  - unfold ret. by rewrite app_nil_r.
  - unfold bind, alloc, ret. rewrite IH. simpl.
    rewrite length_app, Nat.add_1_r, <- app_assoc. reflexivity.
Qed.

(** The loop over the objects just put on the heap prints one line a
    record, in their order, and changes nothing. *)
Lemma for_each_id_lines (docs pre : list dict) (sv : S) :
  for_each (seq (length pre) (length docs))
    (fun doc => d <- deref doc ;; print "Document Id: {0}" [PVal (dict_get d "id")])
    (State sv (pre ++ docs))
  = Outcome (Ok tt) (State sv (pre ++ docs)) (id_line <$> docs).
Proof.
  revert pre. induction docs as [|d ds IH]; intros pre; [reflexivity|].
  specialize (IH (pre ++ [d])).
  rewrite length_app, Nat.add_1_r, <- app_assoc in IH. simpl in IH.
  simpl. unfold bind, deref, print in *. simpl.
  rewrite lookup_app_r, Nat.sub_diag by lia. simpl.
  rewrite IH. reflexivity.
Qed.
End Records.

(** ** ReadDocuments *)

(** C8.  Whatever finite sequence of records the client's read-all operation
    yields under the [maxItemCount] hint of 10, [ReadDocuments] ends normally
    and its output is the banner, the call, and then one [Document Id] line
    for each record yielded, in the order yielded: the n-th line carries the
    value the n-th record holds under [id] ([None] where it holds none), so
    no record is left out and none is printed twice. *)
Theorem ReadDocuments_prints_every_id {S} (E : Env) (client : Client S)
    (s : state S) (docs : list dict) (sv : S) :
  document_client.ReadDocuments client (collection_link E)
    (VDict {["maxItemCount" := VInt 10]}) (service s) = (Ok docs, sv) ->
  let o := DocumentManagement.ReadDocuments E client s in
  let line (d : dict) : event :=
    Print "Document Id: {0}"
      [PVal (match d !! "id" with Some id => id | None => VNone end)] in
  res o = Ok VNone /\
  trace o =
    Print ((nl +:+ "1.3 - Reading all documents in a collection") +:+ nl) [] ::
    Call (CReadDocuments (collection_link E) (VDict {["maxItemCount" := VInt 10]})) ::
    (line <$> docs) /\
  (forall n d, docs !! n = Some d -> trace o !! (2 + n)%nat = Some (line d)) /\
  (forall n d id, docs !! n = Some d -> d !! "id" = Some id ->
     trace o !! (2 + n)%nat = Some (Print "Document Id: {0}" [PVal id])) /\
  length (trace o) = (2 + length docs)%nat.
Proof.
  intros Hread. simpl.
  assert (Hrun : DocumentManagement.ReadDocuments E client s =
    Outcome (Ok VNone) (State sv (heap s ++ docs))
      (Print ((nl +:+ "1.3 - Reading all documents in a collection") +:+ nl) [] ::
       Call (CReadDocuments (collection_link E) (VDict {["maxItemCount" := VInt 10]})) ::
       (id_line <$> docs))).
  { unfold DocumentManagement.ReadDocuments.
    next. rewrite print_eq. next. rewrite (invoke_eq _ _ _ _ _ Hread).
    next. rewrite py_list_spec. next. cbn [service heap].
    rewrite for_each_id_lines, ret_eq. simpl.
    rewrite app_nil_r. reflexivity. }
  rewrite Hrun. simpl. split; [done|]. split; [done|]. split; [|split].
  - intros n d Hn. by rewrite list_lookup_fmap, Hn.
  - intros n d id Hn Hid. rewrite list_lookup_fmap, Hn. simpl.
    unfold id_line, dict_get. by rewrite Hid.
  - by rewrite length_fmap.
Qed.

(** ** QueryDocuments *)

(** How [QueryDocuments] runs, by what the client answers to the query. *)
Lemma QueryDocuments_run {S} (E : Env) (client : Client S) (account_number : string)
    (s : state S) (r : result (list dict)) (sv : S) :
  let banner :=
    Print (nl +:+ "1.4 - Querying for a document using its AccountNumber property") [] in
  let query := VDict {["query" := VStr (DocumentManagement.query_text account_number)]} in
  let found := Print "Found document with account_number: {0}" [PVal (VStr account_number)] in
  document_client.QueryDocuments client (collection_link E) query (service s) = (r, sv) ->
  DocumentManagement.QueryDocuments E client account_number s =
  match r with
  | Ok docs =>
      Outcome (match docs with [] => Raise IndexError | _ :: _ => Ok (length (heap s)) end)
              (State sv (heap s ++ docs))
              [banner; Call (CQueryDocuments (collection_link E) query); found]
  | Raise e =>
      Outcome (Raise e) (State sv (heap s))
              [banner; Call (CQueryDocuments (collection_link E) query)]
  end.
Proof.
  intros banner query found Hq. unfold DocumentManagement.QueryDocuments.
  next. rewrite print_eq. next. fold query. rewrite (invoke_eq _ _ _ _ _ Hq).
  destruct r as [docs|e]; [|reflexivity].
  next. rewrite py_list_spec. next. rewrite print_eq.
  destruct docs as [|d ds]; reflexivity.
Qed.

(** C1, as the code has it.  For every account number, [QueryDocuments]
    sends the client one query on the collection, whose text is
    [SELECT * FROM root r WHERE r.account_number='] followed by the account
    number and a closing quote.  When the client yields at least one record
    the result is (a reference to) the first one yielded; when it yields
    none, the indexing [documentlist[0]] raises [IndexError]: the result is
    an error, not an empty result.  An exception of the client passes
    through. *)
Theorem QueryDocuments_first_or_IndexError {S} (E : Env) (client : Client S)
    (account_number : string) (s : state S) :
  let query :=
    VDict {["query" := VStr (("SELECT * FROM root r WHERE r.account_number='"
                               +:+ account_number) +:+ "'")]} in
  let o := DocumentManagement.QueryDocuments E client account_number s in
  steps_of (trace o)
    = [Started MQueryDocuments; Called (CQueryDocuments (collection_link E) query)] /\
  match document_client.QueryDocuments client (collection_link E) query (service s) with
  | (Ok (d :: _), _) =>
      exists r, res o = Ok r /\ heap (final o) !! r = Some d
  | (Ok [], _) => res o = Raise IndexError
  | (Raise e, _) => res o = Raise e
  end.
Proof.
  intros query o. subst o.
  destruct (document_client.QueryDocuments client (collection_link E) query (service s))
    as [r sv] eqn:Hq.
  rewrite (QueryDocuments_run E client account_number s r sv Hq).
  destruct r as [[|d ds]|e]; simpl; (split; [reflexivity|]); try reflexivity.
  exists (length (heap s)). split; [reflexivity|].
  rewrite lookup_app_r, Nat.sub_diag by lia. reflexivity.
Qed.

(** C1, as stated, fails on the in-memory service: no stored record has the
    account number [Nobody], the client yields no record, and the result of
    [QueryDocuments] is the exception [IndexError], not an empty result. *)
Lemma QueryDocuments_no_match_is_an_error :
  let s := State Mock.seeded [] in
  document_client.QueryDocuments Mock.client (collection_link Mock.env)
    (VDict {["query" := VStr (DocumentManagement.query_text "Nobody")]}) (service s)
  = (Ok [], Mock.seeded) /\
  res (DocumentManagement.QueryDocuments Mock.env Mock.client "Nobody" s) = Raise IndexError /\
  ~ (exists r, res (DocumentManagement.QueryDocuments Mock.env Mock.client "Nobody" s) = Ok r).
Proof.
  assert (H : res (DocumentManagement.QueryDocuments Mock.env Mock.client "Nobody"
                     (State Mock.seeded [])) = Raise IndexError) by (vm_compute; reflexivity).
  simpl. split; [vm_compute; reflexivity|]. split; [exact H|].
  intros [r Hr]. rewrite H in Hr. discriminate.
Qed.

(** ** ReplaceDocument *)

Section Replace.
Context {S : Type}.
Variable E : Env.
Variable client : Client S.

Local Abbreviation banner := (Print (nl +:+ "1.5 - Replacing a document using its Id") []).

(** How [ReplaceDocument] runs on an order that is on the heap. *)
Lemma ReplaceDocument_run (s : state S) (order : loc) (d : dict) :
  heap s !! order = Some d ->
  let h := <[order := shipped_now E d]> (heap s) in
  DocumentManagement.ReplaceDocument E client order s =
  match d !! "id" with
  | None => Outcome (Raise (KeyError "id")) (State (service s) h) [banner]
  | Some (VStr i) =>
      let link := (collection_link E +:+ "/docs/") +:+ i in
      let submitted := Call (CReplaceDocument link (VDict (shipped_now E d))) in
      match document_client.ReplaceDocument client link (VDict (shipped_now E d)) (service s) with
      | (Raise e, sv) => Outcome (Raise e) (State sv h) [banner; submitted]
      | (Ok result, sv) =>
          let charge :=
            Print "Request charge of replace operation: {0}"
              [PVal (dict_get (document_client.last_response_headers client sv)
                       "x-ms-request-charge")] in
          match result !! "shipped_date" with
          | None =>
              Outcome (Raise (KeyError "shipped_date")) (State sv h)
                [banner; submitted; charge]
          | Some v =>
              Outcome (Ok VNone) (State sv h)
                [banner; submitted; charge;
                 Print "Shipped date of updated document: {0}" [PVal v]]
          end
      end
  | Some _ => Outcome (Raise TypeError) (State (service s) h) [banner]
  end.
Proof.
  intros Hd h. unfold DocumentManagement.ReplaceDocument.
  assert (Hh : h !! order = Some (shipped_now E d)).
  { apply list_lookup_insert_eq. by eapply lookup_lt_Some. }
  assert (Hid : shipped_now E d !! "id" = d !! "id") by (by apply lookup_insert_ne).
  next. rewrite print_eq. next. unfold setitem at 1. rewrite Hd.
  next. unfold deref at 1. cbn [heap]. fold (shipped_now E d). fold h. rewrite Hh.
  next. unfold getitem at 1. rewrite Hid.
  destruct (d !! "id") as [v|]; [|reflexivity].
  rewrite ret_eq. destruct v; try reflexivity.
  rename s0 into i. next. unfold str_add at 1. rewrite ret_eq. next.
  destruct (document_client.ReplaceDocument client
              ((collection_link E +:+ "/docs/") +:+ i) (VDict (shipped_now E d)) (service s))
    as [r sv] eqn:Hr.
  rewrite (invoke_eq _ _ (State (service s) h) r sv Hr).
  destruct r as [result|e]; [|reflexivity].
  next. rewrite header_eq. next. rewrite print_eq. next. unfold getitem.
  destruct (result !! "shipped_date"); reflexivity.
Qed.
End Replace.

(** The only record [ReplaceDocument] ever submits is the order with its
    shipped date set. *)
Lemma ReplaceDocument_submitted {S} (E : Env) (client : Client S) (s : state S)
    (order : loc) (d : dict) (link : string) (doc : value) :
  heap s !! order = Some d ->
  Call (CReplaceDocument link doc) ∈ trace (DocumentManagement.ReplaceDocument E client order s) ->
  doc = VDict (shipped_now E d) /\
  exists i, d !! "id" = Some (VStr i) /\ link = (collection_link E +:+ "/docs/") +:+ i.
Proof.
  intros Hd. rewrite (ReplaceDocument_run E client s order d Hd).
  destruct (d !! "id") as [[]|]; simpl;
    try (rewrite !elem_of_cons, elem_of_nil; intros H; exfalso; intuition discriminate).
  destruct (document_client.ReplaceDocument client _ _ (service s)) as [[result|e] sv];
    [destruct (result !! "shipped_date")|]; simpl;
    rewrite !elem_of_cons, elem_of_nil; intros H;
    repeat (destruct H as [H|H]; try discriminate; try done);
    injection H as -> ->; eauto.
Qed.

(** The heap after [ReplaceDocument], however it ends. *)
Lemma ReplaceDocument_heap {S} (E : Env) (client : Client S) (s : state S)
    (order : loc) (d : dict) :
  heap s !! order = Some d ->
  heap (final (DocumentManagement.ReplaceDocument E client order s))
  = <[order := shipped_now E d]> (heap s).
Proof.
  intros Hd. rewrite (ReplaceDocument_run E client s order d Hd).
  destruct (d !! "id") as [[]|]; try reflexivity. simpl.
  destruct (document_client.ReplaceDocument client _ _ (service s)) as [[result|e] sv];
    [destruct (result !! "shipped_date")|]; reflexivity.
Qed.

(** C6, as the code has it.  For every order record that has a string [id],
    [ReplaceDocument] submits to the client's replace operation, under the
    link of that id, the order with exactly one field set: [shipped_date],
    to the formatted current time; every other field of the submitted record,
    the [id] among them, is the order's.  The method itself returns no
    record: it ends with [None] (when the client returns a record that has a
    [shipped_date]) or with an exception. *)
Theorem ReplaceDocument_sets_shipped_date {S} (E : Env) (client : Client S)
    (s : state S) (order : loc) (d : dict) (i : string) :
  heap s !! order = Some d ->
  d !! "id" = Some (VStr i) ->
  let o := DocumentManagement.ReplaceDocument E client order s in
  let link := (collection_link E +:+ "/docs/") +:+ i in
  let sent : dict := <["shipped_date" := VStr (now_c E)]> d in
  trace o !! 1%nat = Some (Call (CReplaceDocument link (VDict sent))) /\
  (forall link' doc, Call (CReplaceDocument link' doc) ∈ trace o ->
     link' = link /\ doc = VDict sent) /\
  sent !! "shipped_date" = Some (VStr (now_c E)) /\
  (forall k, k ≠ "shipped_date" -> sent !! k = d !! k) /\
  sent !! "id" = Some (VStr i) /\
  (res o = Ok VNone \/ exists e, res o = Raise e) /\
  (forall result sv,
     document_client.ReplaceDocument client link (VDict sent) (service s) = (Ok result, sv) ->
     is_Some (result !! "shipped_date") -> res o = Ok VNone).
Proof.
  intros Hd Hid o link sent.
  assert (Hrun := ReplaceDocument_run E client s order d Hd).
  rewrite Hid in Hrun. fold o in Hrun. simpl in Hrun.
  fold link in Hrun. unfold shipped_now in Hrun. fold sent in Hrun.
  split; [|split; [|split; [|split; [|split; [|split]]]]].
  - rewrite Hrun.
    destruct (document_client.ReplaceDocument client link (VDict sent) (service s))
      as [[result|e] sv]; [destruct (result !! "shipped_date")|]; reflexivity.
  - intros link' doc Hin.
    destruct (ReplaceDocument_submitted E client s order d link' doc Hd Hin)
      as [-> [i' [Hi' ->]]].
    rewrite Hid in Hi'. injection Hi' as <-. done.
  - apply lookup_insert_eq.
  - intros k Hk. by apply lookup_insert_ne.
  - unfold sent. by rewrite lookup_insert_ne.
  - rewrite Hrun.
    destruct (document_client.ReplaceDocument client link (VDict sent) (service s))
      as [[result|e] sv]; [destruct (result !! "shipped_date")|]; simpl; eauto.
  - intros result sv Hr [v Hv]. rewrite Hrun, Hr, Hv. reflexivity.
Qed.

(** C10.  [ReplaceDocument] works on the caller's own record object: for
    every order on the heap, however the call ends, that object then holds
    the order with [shipped_date] overwritten by the current time and nothing
    else changed, every other object is as before, and the only record the
    client is ever handed is the overwritten one, so the overwriting comes
    before the submission.  What the caller reads under [shipped_date]
    afterwards is the current time, whatever was there before the call. *)
Theorem ReplaceDocument_mutates_argument {S} (E : Env) (client : Client S)
    (s : state S) (order : loc) (d : dict) :
  heap s !! order = Some d ->
  let o := DocumentManagement.ReplaceDocument E client order s in
  heap (final o) !! order = Some (<["shipped_date" := VStr (now_c E)]> d) /\
  (forall d', heap (final o) !! order = Some d' ->
     dict_get d' "shipped_date" = VStr (now_c E) /\
     forall k, k ≠ "shipped_date" -> d' !! k = d !! k) /\
  (forall r, r ≠ order -> heap (final o) !! r = heap s !! r) /\
  (forall link doc, Call (CReplaceDocument link doc) ∈ trace o ->
     doc = VDict (<["shipped_date" := VStr (now_c E)]> d)).
Proof.
  intros Hd o. subst o. rewrite (ReplaceDocument_heap E client s order d Hd).
  assert (Hlt : (order < length (heap s))%nat) by (by eapply lookup_lt_Some).
  split; [|split; [|split]].
  - by apply list_lookup_insert_eq.
  - intros d'. rewrite list_lookup_insert_eq by done. intros [= <-]. split.
    + unfold dict_get, shipped_now. by rewrite lookup_insert_eq.
    + intros k Hk. by apply lookup_insert_ne.
  - intros r Hr. by apply list_lookup_insert_ne.
  - intros link doc Hin.
    by destruct (ReplaceDocument_submitted E client s order d link doc Hd Hin) as [-> _].
Qed.

(** C6, as stated, fails on the in-memory service, for an order whose
    [shipped_date] is already the current time (an order replaced a moment
    before): the call returns [None], not a record, and the record the
    service answers with has the [shipped_date] the input had. *)
Lemma ReplaceDocument_returns_no_record :
  let s := State Mock.seeded [Mock.shipped_order] in
  let o := DocumentManagement.ReplaceDocument Mock.env Mock.client 0%nat s in
  res o = Ok VNone /\
  (document_client.ReplaceDocument Mock.client "dbs/db/colls/coll/docs/SalesOrder1"
     (VDict Mock.shipped_order) Mock.seeded).1 = Ok Mock.shipped_order /\
  heap (final o) !! 0%nat = Some Mock.shipped_order /\
  ~ (exists record, res o = Ok (VDict record) /\
       record !! "shipped_date" ≠ Mock.shipped_order !! "shipped_date").
Proof.
  assert (H : res (DocumentManagement.ReplaceDocument Mock.env Mock.client 0%nat
                     (State Mock.seeded [Mock.shipped_order])) = Ok VNone)
    by (vm_compute; reflexivity).
  simpl. split; [exact H|]. split; [vm_compute; reflexivity|].
  split; [vm_compute; reflexivity|].
  intros [record [Hr _]]. rewrite H in Hr. discriminate.
Qed.

(** C6 on the in-memory service: the seeded order, replaced. *)
Lemma ReplaceDocument_sets_shipped_date_witness :
  let s := State Mock.seeded [Mock.order1] in
  heap s !! 0%nat = Some Mock.order1 /\
  Mock.order1 !! "id" = Some (VStr "SalesOrder1") /\
  trace (DocumentManagement.ReplaceDocument Mock.env Mock.client 0%nat s) !! 1%nat =
    Some (Call (CReplaceDocument
                  ((collection_link Mock.env +:+ "/docs/") +:+ "SalesOrder1")
                  (VDict (<["shipped_date" := VStr (now_c Mock.env)]> Mock.order1)))).
Proof.
  split; [reflexivity|]. split; [reflexivity|].
  exact (proj1 (ReplaceDocument_sets_shipped_date Mock.env Mock.client
                  (State Mock.seeded [Mock.order1]) 0%nat Mock.order1 "SalesOrder1"
                  eq_refl eq_refl)).
Defined.

(** C10 on the in-memory service: the caller's order after the call. *)
Lemma ReplaceDocument_mutates_argument_witness :
  let s := State Mock.seeded [Mock.order1] in
  heap s !! 0%nat = Some Mock.order1 /\
  heap (final (DocumentManagement.ReplaceDocument Mock.env Mock.client 0%nat s)) !! 0%nat =
    Some (<["shipped_date" := VStr (now_c Mock.env)]> Mock.order1).
Proof.
  split; [reflexivity|].
  exact (proj1 (ReplaceDocument_mutates_argument Mock.env Mock.client
                  (State Mock.seeded [Mock.order1]) 0%nat Mock.order1 eq_refl)).
Defined.

(** C8 on a collection of 25 records, whose ids are 0 to 24: the banner,
    the call and 25 lines, the first with the id 0 and the last with the id
    24. *)
Lemma ReadDocuments_prints_every_id_witness :
  let s := State Mock.crowded [] in
  let docs := Mock.numbered <$> seq 0 25 in
  let o := DocumentManagement.ReadDocuments Mock.env Mock.client s in
  document_client.ReadDocuments Mock.client (collection_link Mock.env)
    (VDict {["maxItemCount" := VInt 10]}) (service s) = (Ok docs, Mock.crowded) /\
  length (trace o) = 27%nat /\
  trace o !! 2%nat = Some (Print "Document Id: {0}" [PVal (VInt 0)]) /\
  trace o !! 26%nat = Some (Print "Document Id: {0}" [PVal (VInt 24)]).
Proof.
  assert (H : document_client.ReadDocuments Mock.client (collection_link Mock.env)
                (VDict {["maxItemCount" := VInt 10]}) (service (State Mock.crowded []))
              = (Ok (Mock.numbered <$> seq 0 25), Mock.crowded))
    by (vm_compute; reflexivity).
  split; [exact H|].
  destruct (ReadDocuments_prints_every_id Mock.env Mock.client
              (State Mock.crowded []) _ _ H) as (_ & _ & _ & Hid & Hlen).
  split; [exact Hlen|]. split.
  - exact (Hid 0%nat (Mock.numbered 0) (VInt 0) eq_refl eq_refl).
  - exact (Hid 24%nat (Mock.numbered 24) (VInt 24) eq_refl eq_refl).
Defined.

(** ** CreateDocuments *)

(** [GetSalesOrder] never builds its record: [datetime] is the module, the
    module has no attribute [min], and the lookup raises. *)
Lemma GetSalesOrder_raises {S} (E : Env) (document_id : string) (s : state S) :
  DocumentManagement.GetSalesOrder E document_id s
  = Outcome (Raise (AttributeError "min")) s [].
Proof. reflexivity. Qed.

(** C2, which the code does not meet.  For every client, configuration and
    state, [CreateDocuments] prints its banner and then raises
    [AttributeError] out of [GetSalesOrder]: nothing is submitted to the
    client, neither the first order nor the second, and the service is left
    as it was. *)
Theorem CreateDocuments_raises_AttributeError {S} (E : Env) (client : Client S)
    (s : state S) :
  DocumentManagement.CreateDocuments E client s
  = Outcome (Raise (AttributeError "min")) s [Print (nl +:+ "1.1 - Creating Documents") []].
Proof. reflexivity. Qed.

(** The second record, by contrast, is built: had the first been too, it
    would have gone to the client under the id given. *)
Lemma GetSalesOrderV2_id {S} (E : Env) (document_id : string) (s : state S) :
  exists d, DocumentManagement.GetSalesOrderV2 E document_id s = Outcome (Ok d) s [] /\
            d !! "id" = Some (VStr document_id) /\
            d !! "account_number" = Some (VStr "Account2").
Proof. eexists. split; [reflexivity|]. split; reflexivity. Qed.

(** ** The client handle *)

(** C3, which the code does not meet.  [__exit__] is reached on every path
    of the [with] statement, but all it does is rebind its own parameter: it
    returns [None] and leaves the state as it is, emitting nothing.  So in no
    run of [run_sample], whatever the client answers and however the run
    ends, is [close] called on the client. *)
Theorem run_sample_never_closes_client {S} (E : Env) (client : Client S) (s : state S) :
  (Call CClose ∉ trace (run_sample E client s)) /\
  (forall (exc : option exn) (s' : state S),
     IDisposable.__exit__ (IDisposable.new client) exc s' = Outcome (Ok VNone) s' []).
Proof.
  split; [|reflexivity].
  intros Hin. pose proof (run_sample_shown E client s) as H.
  rewrite Forall_forall in H. specialize (H _ Hin). discriminate.
Qed.

(** On the in-memory service, whose [close] marks the store closed: after a
    run that completes, the store is still open. *)
Example run_sample_leaves_store_open :
  let o := run_sample Mock.env Mock.client (State Mock.seeded []) in
  res o = Ok VNone /\ Mock.closed (service (final o)) = false.
Proof. vm_compute. split; reflexivity. Qed.

(** ** The top level *)

(** C7, as the code has it.  When an exception leaves [run_sample], the top
    level catches it if it is an instance of [Exception]: it prints the line
    with the exception's [args] after everything the run printed, and the
    script ends normally.  An exception that is not one ([KeyboardInterrupt],
    [SystemExit]) is not caught: it leaves the script as it left
    [run_sample], and nothing is logged. *)
Theorem main_catches_Exception {S} (E : Env) (client : Client S) (s : state S) (e : exn) :
  res (run_sample E client s) = Raise e ->
  let o := main E client s in
  if isinstance_Exception e then
    res o = Ok VNone /\
    final o = final (run_sample E client s) /\
    trace o = trace (run_sample E client s)
              ++ [Print "Top level Error: args:{0}, message:N/A" [PArgs e]]
  else
    res o = Raise e /\
    final o = final (run_sample E client s) /\
    trace o = trace (run_sample E client s).
Proof.
  intros Hrun o. subst o. unfold main, try_except. rewrite bind_eq.
  destruct (run_sample E client s) as [r s' t]. simpl in Hrun. subst r.
  destruct (isinstance_Exception e); simpl; auto.
Qed.

(** A run that ends normally leaves nothing for the top level to do. *)
Lemma main_after_normal_run {S} (E : Env) (client : Client S) (s : state S) (v : value) :
  res (run_sample E client s) = Ok v ->
  res (main E client s) = Ok VNone /\
  trace (main E client s) = trace (run_sample E client s).
Proof.
  intros Hrun. unfold main, try_except. rewrite bind_eq.
  destruct (run_sample E client s) as [r s' t]. simpl in Hrun. subst r.
  simpl. by rewrite !app_nil_r.
Qed.

(** C7, as stated, fails when the user interrupts the first request:
    [KeyboardInterrupt] leaves [run_sample], the top level does not catch it,
    and the script ends with that exception, having logged nothing. *)
Lemma main_does_not_catch_KeyboardInterrupt :
  let s := State Mock.empty [] in
  res (run_sample Mock.env Mock.interrupted s) = Raise KeyboardInterrupt /\
  res (main Mock.env Mock.interrupted s) = Raise KeyboardInterrupt /\
  (forall args, Print "Top level Error: args:{0}, message:N/A" args
     ∉ trace (main Mock.env Mock.interrupted s)).
Proof.
  simpl. split; [vm_compute; reflexivity|]. split; [vm_compute; reflexivity|].
  intros args Hin. vm_compute in Hin.
  repeat (apply elem_of_cons in Hin as [Hin|Hin]; [discriminate|]).
  by apply elem_of_nil in Hin.
Qed.

(** C7 on the in-memory service: no order of [Account1] is stored, the
    query step raises [IndexError], and the top level logs it. *)
Lemma main_catches_Exception_witness :
  let s := State Mock.other_account [] in
  res (run_sample Mock.env Mock.client s) = Raise IndexError /\
  res (main Mock.env Mock.client s) = Ok VNone /\
  last (trace (main Mock.env Mock.client s))
    = Some (Print "Top level Error: args:{0}, message:N/A" [PArgs IndexError]).
Proof.
  assert (H : res (run_sample Mock.env Mock.client (State Mock.other_account []))
              = Raise IndexError) by (vm_compute; reflexivity).
  split; [exact H|].
  destruct (main_catches_Exception Mock.env Mock.client (State Mock.other_account [])
              IndexError H) as (Hres & _ & Htrace).
  split; [exact Hres|]. rewrite Htrace. apply last_snoc.
Defined.

(** ** Initialize *)

Section Setup.
Context {S : Type}.
Variable E : Env.
Variable client : Client S.

(** The result of [Initialize] and the state it leaves, from the client's
    answers to its two requests. *)
Lemma Initialize_result (s : state S) (r1 r2 : result value) (sv1 sv2 : S) :
  document_client.CreateDatabase client (VDict {["id" := VStr (DATABASE_ID E)]}) (service s)
    = (r1, sv1) ->
  document_client.CreateCollection client (database_link E)
    (DocumentManagement.collection_definition E) sv1 = (r2, sv2) ->
  let o := DocumentManagement.Initialize E client s in
  res o = match setup_step r1 with
          | Raise e => Raise e
          | Ok _ => match setup_step r2 with
                    | Raise e => Raise e
                    | Ok _ => Ok VNone
                    end
          end /\
  service (final o) = match setup_step r1 with Raise _ => sv1 | Ok _ => sv2 end /\
  heap (final o) = heap s.
Proof.
  intros H1 H2. unfold DocumentManagement.Initialize.
  assert (Hstep1 :
    try_except
      (invoke (CCreateDatabase (VDict {["id" := VStr (DATABASE_ID E)]}))
         (document_client.CreateDatabase client (VDict {["id" := VStr (DATABASE_ID E)]})) ;;
       print "Database with id '{0}' created" [PVal (VStr (DATABASE_ID E))])
      isinstance_DocumentDBError
      (DocumentManagement.conflict_or_failure (ret tt)) s
    = Outcome (setup_step r1) (State sv1 (heap s))
        (Call (CCreateDatabase (VDict {["id" := VStr (DATABASE_ID E)]})) ::
         match r1 with
         | Ok _ => [Print "Database with id '{0}' created" [PVal (VStr (DATABASE_ID E))]]
         | Raise _ => []
         end)).
  { unfold try_except. next. rewrite (invoke_eq _ _ _ _ _ H1).
    destruct r1 as [v|e]; [reflexivity|]. unfold setup_step.
    destruct (isinstance_DocumentDBError e); [|reflexivity].
    unfold DocumentManagement.conflict_or_failure.
    destruct (status_code e) as [code|]; [|reflexivity].
    destruct (code =? 409); reflexivity. }
  assert (Hstep2 : exists t,
    try_except
      (invoke (CCreateCollection (database_link E) (DocumentManagement.collection_definition E))
         (document_client.CreateCollection client (database_link E)
            (DocumentManagement.collection_definition E)) ;;
       print "Collection with id '{0}' created" [PVal (VStr (COLLECTION_ID E))])
      isinstance_DocumentDBError
      (DocumentManagement.conflict_or_failure
         (print "Collection with id '{0}' was found" [PVal (VStr (COLLECTION_ID E))]))
      (State sv1 (heap s))
    = Outcome (setup_step r2) (State sv2 (heap s)) t).
  { unfold try_except. next. rewrite (invoke_eq _ _ (State sv1 (heap s)) _ _ H2).
    destruct r2 as [v|e]; [eexists; reflexivity|]. unfold setup_step.
    destruct (isinstance_DocumentDBError e); [|eexists; reflexivity].
    unfold DocumentManagement.conflict_or_failure.
    destruct (status_code e) as [code|]; [|eexists; reflexivity].
    destruct (code =? 409); eexists; reflexivity. }
  destruct Hstep2 as [t Hstep2].
  next. rewrite print_eq. next. rewrite Hstep1.
  destruct (setup_step r1) as [[]|e1]; [|done].
  next. rewrite Hstep2.
  destruct (setup_step r2) as [[]|e2]; done.
Qed.
End Setup.

Lemma setup_step_conflict (e : exn) : is_conflict e -> setup_step (Raise e) = Ok tt.
Proof. intros [Hi Hs]. unfold setup_step. by rewrite Hi, Hs. Qed.

Lemma collection_definition_id (E : Env) :
  id_of (DocumentManagement.collection_definition E) = Some (COLLECTION_ID E).
Proof.
  unfold id_of, DocumentManagement.collection_definition.
  by rewrite lookup_insert_eq.
Qed.

(** One call of [Initialize] on a conflict-reporting service ends normally
    and leaves the database and the collection of the configuration in
    existence, beside whatever existed. *)
Lemma Initialize_once {S} (E : Env) (client : Client S)
    (databases : S -> gset string) (collections : S -> gset (string * string))
    (s : state S) :
  conflict_reporting client databases collections ->
  let o := DocumentManagement.Initialize E client s in
  res o = Ok VNone /\
  databases (service (final o)) = {[DATABASE_ID E]} ∪ databases (service s) /\
  collections (service (final o))
    = {[(database_link E, COLLECTION_ID E)]} ∪ collections (service s) /\
  heap (final o) = heap s.
Proof.
  intros HC o.
  assert (H1 : exists r1 sv1,
    document_client.CreateDatabase client (VDict {["id" := VStr (DATABASE_ID E)]}) (service s)
      = (r1, sv1) /\ setup_step r1 = Ok tt /\
    databases sv1 = {[DATABASE_ID E]} ∪ databases (service s) /\
    collections sv1 = collections (service s)).
  { destruct (decide (DATABASE_ID E ∈ databases (service s))) as [Hin|Hout].
    - destruct (database_conflict _ _ _ HC _ _ Hin) as (e & sv1 & Hc & He & Hd & Hk).
      exists (Raise e), sv1. split; [done|]. split; [by apply setup_step_conflict|].
      split; [|done]. rewrite Hd. set_solver.
    - destruct (database_created _ _ _ HC _ _ Hout) as (v & sv1 & Hc & Hd & Hk).
      exists (Ok v), sv1. done. }
  destruct H1 as (r1 & sv1 & H1 & Hs1 & Hd1 & Hk1).
  assert (Hdb : DATABASE_ID E ∈ databases sv1) by (rewrite Hd1; set_solver).
  assert (H2 : exists r2 sv2,
    document_client.CreateCollection client (database_link E)
      (DocumentManagement.collection_definition E) sv1 = (r2, sv2) /\
    setup_step r2 = Ok tt /\
    databases sv2 = databases sv1 /\
    collections sv2 = {[(database_link E, COLLECTION_ID E)]} ∪ collections sv1).
  { unfold database_link.
    destruct (decide (("dbs/" +:+ DATABASE_ID E, COLLECTION_ID E) ∈ collections sv1))
      as [Hin|Hout].
    - destruct (collection_conflict _ _ _ HC _ _ _ _ Hdb (collection_definition_id E) Hin)
        as (e & sv2 & Hc & He & Hd & Hk).
      exists (Raise e), sv2. split; [done|]. split; [by apply setup_step_conflict|].
      split; [done|]. rewrite Hk. set_solver.
    - destruct (collection_created _ _ _ HC _ _ _ _ Hdb (collection_definition_id E) Hout)
        as (v & sv2 & Hc & Hd & Hk).
      exists (Ok v), sv2. done. }
  destruct H2 as (r2 & sv2 & H2 & Hs2 & Hd2 & Hk2).
  destruct (Initialize_result E client s r1 r2 sv1 sv2 H1 H2) as (Hres & Hsv & Hheap).
  fold o in Hres, Hsv, Hheap. rewrite Hs1 in Hres, Hsv. rewrite Hs2 in Hres.
  rewrite Hsv, Hd2, Hk2, Hd1, Hk1. done.
Qed.

(** C4.  On every client whose service reports the creation of a database or
    of a collection that exists as a conflict of status 409 (and creates the
    ones that do not exist), [Initialize] called twice in a row ends normally
    both times.  Where nothing else existed before, what exists afterwards is
    exactly one database, the one of the configuration, and exactly one
    collection, the configured one in that database. *)
Theorem Initialize_twice_is_idempotent {S} (E : Env) (client : Client S)
    (databases : S -> gset string) (collections : S -> gset (string * string))
    (s : state S) :
  conflict_reporting client databases collections ->
  databases (service s) ⊆ {[DATABASE_ID E]} ->
  collections (service s) ⊆ {[(database_link E, COLLECTION_ID E)]} ->
  let o1 := DocumentManagement.Initialize E client s in
  let o2 := DocumentManagement.Initialize E client (final o1) in
  res o1 = Ok VNone /\ res o2 = Ok VNone /\
  databases (service (final o2)) = {[DATABASE_ID E]} /\
  collections (service (final o2)) = {[(database_link E, COLLECTION_ID E)]} /\
  size (databases (service (final o2))) = 1%nat /\
  size (collections (service (final o2))) = 1%nat.
Proof.
  intros HC Hd Hk o1 o2.
  destruct (Initialize_once E client databases collections s HC) as (R1 & D1 & K1 & _).
  destruct (Initialize_once E client databases collections (final o1) HC) as (R2 & D2 & K2 & _).
  fold o1 in R1, D1, K1, R2, D2, K2. fold o2 in R2, D2, K2.
  assert (Dfin : databases (service (final o2)) = {[DATABASE_ID E]})
    by (rewrite D2, D1; set_solver).
  assert (Kfin : collections (service (final o2)) = {[(database_link E, COLLECTION_ID E)]})
    by (rewrite K2, K1; set_solver).
  rewrite Dfin, Kfin, !size_singleton. done.
Qed.

(** The in-memory service reports conflicts. *)
Lemma Mock_reports_conflicts : conflict_reporting Mock.client Mock.dbs Mock.colls.
Proof.
  split.
  - intros sv i Hi. simpl. unfold Mock.CreateDatabase, id_of.
    rewrite lookup_singleton_eq, bool_decide_eq_false_2 by done. eauto.
  - intros sv i Hi. simpl. unfold Mock.CreateDatabase, id_of.
    rewrite lookup_singleton_eq, bool_decide_eq_true_2 by done.
    eexists _, _. split; [done|]. by repeat split.
  - intros sv db body i Hdb Hid Hi. simpl. unfold Mock.CreateCollection.
    rewrite Hid, bool_decide_eq_true_2, bool_decide_eq_false_2 by
      (done || (unfold Mock.db_links; apply elem_of_map; eauto)).
    simpl. eauto.
  - intros sv db body i Hdb Hid Hi. simpl. unfold Mock.CreateCollection.
    rewrite Hid, !bool_decide_eq_true_2 by
      (done || (unfold Mock.db_links; apply elem_of_map; eauto)).
    simpl. eexists _, _. split; [done|]. by repeat split.
Qed.

(** C4 on the in-memory service, from the empty store. *)
Lemma Initialize_twice_is_idempotent_witness :
  let s := State Mock.empty [] in
  let o1 := DocumentManagement.Initialize Mock.env Mock.client s in
  let o2 := DocumentManagement.Initialize Mock.env Mock.client (final o1) in
  conflict_reporting Mock.client Mock.dbs Mock.colls /\
  Mock.dbs (service s) ⊆ {["db"]} /\
  Mock.colls (service s) ⊆ {[("dbs/db", "coll")]} /\
  res o1 = Ok VNone /\ res o2 = Ok VNone /\
  size (Mock.dbs (service (final o2))) = 1%nat /\
  size (Mock.colls (service (final o2))) = 1%nat.
Proof.
  assert (Hd : Mock.dbs (service (State Mock.empty [])) ⊆ {[DATABASE_ID Mock.env]})
    by apply empty_subseteq.
  assert (Hk : Mock.colls (service (State Mock.empty []))
               ⊆ {[(database_link Mock.env, COLLECTION_ID Mock.env)]})
    by apply empty_subseteq.
  destruct (Initialize_twice_is_idempotent Mock.env Mock.client Mock.dbs Mock.colls
              (State Mock.empty []) Mock_reports_conflicts Hd Hk)
    as (R1 & R2 & _ & _ & N1 & N2).
  split; [exact Mock_reports_conflicts|]. split; [exact Hd|]. split; [exact Hk|].
  split; [exact R1|]. split; [exact R2|]. split; [exact N1 | exact N2].
Defined.

(** ** Service errors *)

Lemma ReadDocument_raises {S} (E : Env) (client : Client S) (doc_id account_number : string)
    (s : state S) (e : exn) (sv : S) :
  document_client.ReadDocument client ((collection_link E +:+ "/docs/") +:+ doc_id)
    (VDict {["partitionKey" := VStr account_number]}) (service s) = (Raise e, sv) ->
  res (DocumentManagement.ReadDocument E client doc_id account_number s) = Raise e.
Proof.
  intros H. unfold DocumentManagement.ReadDocument.
  next. rewrite print_eq. next. rewrite (invoke_eq _ _ _ _ _ H). reflexivity.
Qed.

Lemma ReadDocuments_raises {S} (E : Env) (client : Client S) (s : state S) (e : exn) (sv : S) :
  document_client.ReadDocuments client (collection_link E)
    (VDict {["maxItemCount" := VInt 10]}) (service s) = (Raise e, sv) ->
  res (DocumentManagement.ReadDocuments E client s) = Raise e.
Proof.
  intros H. unfold DocumentManagement.ReadDocuments.
  next. rewrite print_eq. next. rewrite (invoke_eq _ _ _ _ _ H). reflexivity.
Qed.

Lemma raises_with_status {S A} (o : outcome S A) (e : exn) (code : Z) :
  res o = Raise e -> isinstance_DocumentDBError e = true -> status_code e = Some code ->
  fails_with_status o code.
Proof. intros. exists e. done. Qed.

(** C5.  Let a request fail with a service error of status [code] other
    than 409.  If it is the creation of the database, or the creation of the
    collection after the database step went through, [Initialize] raises an
    [HTTPFailure] of status [code].  If it is the request of [ReadDocument],
    [ReadDocuments], [QueryDocuments] or [ReplaceDocument], the method raises
    that very error, and so does [run_sample] when it is the construction
    of the client.  Either way the caller gets a service error that carries
    [code].  And when each of the two setup requests either succeeds or
    fails with a service error of status 409, [Initialize] ends normally.
    ([CreateDocuments] reaches no request, see C2.) *)
Theorem service_errors_keep_their_status {S} (E : Env) (client : Client S)
    (s : state S) (e : exn) (code : Z) :
  isinstance_DocumentDBError e = true ->
  status_code e = Some code ->
  code ≠ 409 ->
  (forall sv,
     document_client.CreateDatabase client (VDict {["id" := VStr (DATABASE_ID E)]})
       (service s) = (Raise e, sv) ->
     res (DocumentManagement.Initialize E client s) = Raise (HTTPFailure code) /\
     fails_with_status (DocumentManagement.Initialize E client s) code) /\
  (forall r1 sv1 sv2,
     document_client.CreateDatabase client (VDict {["id" := VStr (DATABASE_ID E)]})
       (service s) = (r1, sv1) ->
     setup_step r1 = Ok tt ->
     document_client.CreateCollection client (database_link E)
       (DocumentManagement.collection_definition E) sv1 = (Raise e, sv2) ->
     res (DocumentManagement.Initialize E client s) = Raise (HTTPFailure code) /\
     fails_with_status (DocumentManagement.Initialize E client s) code) /\
  (forall doc_id account_number sv,
     document_client.ReadDocument client ((collection_link E +:+ "/docs/") +:+ doc_id)
       (VDict {["partitionKey" := VStr account_number]}) (service s) = (Raise e, sv) ->
     res (DocumentManagement.ReadDocument E client doc_id account_number s) = Raise e /\
     fails_with_status (DocumentManagement.ReadDocument E client doc_id account_number s) code) /\
  (forall sv,
     document_client.ReadDocuments client (collection_link E)
       (VDict {["maxItemCount" := VInt 10]}) (service s) = (Raise e, sv) ->
     res (DocumentManagement.ReadDocuments E client s) = Raise e /\
     fails_with_status (DocumentManagement.ReadDocuments E client s) code) /\
  (forall account_number sv,
     document_client.QueryDocuments client (collection_link E)
       (VDict {["query" := VStr (DocumentManagement.query_text account_number)]})
       (service s) = (Raise e, sv) ->
     res (DocumentManagement.QueryDocuments E client account_number s) = Raise e /\
     fails_with_status (DocumentManagement.QueryDocuments E client account_number s) code) /\
  (forall order d i sv,
     heap s !! order = Some d -> d !! "id" = Some (VStr i) ->
     document_client.ReplaceDocument client ((collection_link E +:+ "/docs/") +:+ i)
       (VDict (<["shipped_date" := VStr (now_c E)]> d)) (service s) = (Raise e, sv) ->
     res (DocumentManagement.ReplaceDocument E client order s) = Raise e /\
     fails_with_status (DocumentManagement.ReplaceDocument E client order s) code) /\
  (forall sv,
     document_client.DocumentClient client (HOST E)
       (VDict {["masterKey" := VStr (MASTER_KEY E)]}) (service s) = (Raise e, sv) ->
     res (run_sample E client s) = Raise e /\
     fails_with_status (run_sample E client s) code) /\
  (forall r1 sv1 r2 sv2,
     document_client.CreateDatabase client (VDict {["id" := VStr (DATABASE_ID E)]})
       (service s) = (r1, sv1) ->
     document_client.CreateCollection client (database_link E)
       (DocumentManagement.collection_definition E) sv1 = (r2, sv2) ->
     (forall e1, r1 = Raise e1 -> is_conflict e1) ->
     (forall e2, r2 = Raise e2 -> is_conflict e2) ->
     res (DocumentManagement.Initialize E client s) = Ok VNone).
Proof.
  intros Hi Hs Hc.
  assert (Hstep : setup_step (Raise e) = Raise (HTTPFailure code)).
  { unfold setup_step. rewrite Hi, Hs.
    destruct (code =? 409) eqn:Heq; [|reflexivity]. apply Z.eqb_eq in Heq. done. }
  assert (Hwrap : forall o : outcome S value,
            res o = Raise (HTTPFailure code) ->
            res o = Raise (HTTPFailure code) /\ fails_with_status o code).
  { intros o Ho. split; [done|]. by eapply raises_with_status. }
  assert (Hpass : forall A (o : outcome S A),
            res o = Raise e -> res o = Raise e /\ fails_with_status o code).
  { intros A o Ho. split; [done|]. by eapply raises_with_status. }
  split; [|split; [|split; [|split; [|split; [|split; [|split]]]]]].
  - intros sv H1. apply Hwrap.
    destruct (document_client.CreateCollection client (database_link E)
                (DocumentManagement.collection_definition E) sv) as [r2 sv2] eqn:H2.
    destruct (Initialize_result E client s _ _ _ _ H1 H2) as [Hres _].
    by rewrite Hres, Hstep.
  - intros r1 sv1 sv2 H1 Hok H2. apply Hwrap.
    destruct (Initialize_result E client s _ _ _ _ H1 H2) as [Hres _].
    by rewrite Hres, Hok, Hstep.
  - intros doc_id account_number sv H. apply Hpass. by eapply ReadDocument_raises.
  - intros sv H. apply Hpass. by eapply ReadDocuments_raises.
  - intros account_number sv H. apply Hpass.
    by rewrite (QueryDocuments_run E client account_number s _ _ H).
  - intros order d i sv Hd Hid H. apply Hpass.
    rewrite (ReplaceDocument_run E client s order d Hd), Hid. simpl.
    unfold shipped_now. by rewrite H.
  - intros sv H. apply Hpass.
    unfold run_sample, with_statement, new_client. rewrite !bind_eq.
    by rewrite (invoke_eq _ _ _ _ _ H).
  - intros r1 sv1 r2 sv2 H1 H2 Hc1 Hc2.
    destruct (Initialize_result E client s _ _ _ _ H1 H2) as [Hres _].
    assert (Ho1 : setup_step r1 = Ok tt).
    { destruct r1 as [v|e1]; [done|]. by apply setup_step_conflict, Hc1. }
    assert (Ho2 : setup_step r2 = Ok tt).
    { destruct r2 as [v|e2]; [done|]. by apply setup_step_conflict, Hc2. }
    by rewrite Hres, Ho1, Ho2.
Qed.

(** C5 on a service that answers every request with status 503. *)
Lemma service_errors_keep_their_status_witness :
  let s := State Mock.empty [] in
  isinstance_DocumentDBError (HTTPFailure 503) = true /\
  status_code (HTTPFailure 503) = Some 503 /\
  503 ≠ 409 /\
  document_client.CreateDatabase Mock.unavailable
    (VDict {["id" := VStr (DATABASE_ID Mock.env)]}) (service s)
    = (Raise (HTTPFailure 503), Mock.empty) /\
  res (DocumentManagement.Initialize Mock.env Mock.unavailable s) = Raise (HTTPFailure 503).
Proof.
  assert (Hne : 503 ≠ 409) by lia.
  split; [reflexivity|]. split; [reflexivity|]. split; [exact Hne|].
  split; [reflexivity|].
  exact (proj1 (proj1 (service_errors_keep_their_status Mock.env Mock.unavailable
                         (State Mock.empty []) (HTTPFailure 503) 503
                         eq_refl eq_refl Hne) Mock.empty eq_refl)).
Defined.

(** ** The steps of a computation *)

Lemma steps_of_app (t1 t2 : list event) :
  steps_of (t1 ++ t2) = steps_of t1 ++ steps_of t2.
Proof. apply omap_app. Qed.

Section Steps.
Context {S : Type}.

Lemma exactly_ret {A} (a : A) : exactly [] (@ret S A a).
Proof. intros s. reflexivity. Qed.

Lemma exactly_raise {A} (e : exn) : exactly [] (@raise S A e).
Proof. intros s. reflexivity. Qed.

Lemma exactly_print t args x :
  step_of (Print t args) = x -> exactly (option_list x) (@print S t args).
Proof. intros <- s. unfold print, steps_of. simpl. by destruct (step_of _). Qed.

Lemma exactly_invoke {A} c (op : S -> result A * S) : exactly [Called c] (invoke c op).
Proof. intros s. unfold invoke. by destruct (op (service s)). Qed.

Lemma exactly_header (client : Client S) k : exactly [] (header client k).
Proof. intros s. reflexivity. Qed.

Lemma exactly_deref r : exactly [] (@deref S r).
Proof. intros s. unfold deref. by destruct (heap s !! r). Qed.

Lemma exactly_setitem r k v : exactly [] (@setitem S r k v).
Proof. intros s. unfold setitem. by destruct (heap s !! r). Qed.

Lemma exactly_getitem d k : exactly [] (@getitem S d k).
Proof. unfold getitem. destruct (d !! k); [apply exactly_ret | apply exactly_raise]. Qed.

Lemma exactly_str_add a b : exactly [] (@str_add S a b).
Proof. destruct b; first [apply exactly_ret | apply exactly_raise]. Qed.

Lemma exactly_first_item {X} (l : list X) : exactly [] (@first_item S X l).
Proof. destruct l; [apply exactly_raise | apply exactly_ret]. Qed.

Lemma exactly_py_list docs : exactly [] (@py_list S docs).
Proof. intros s. by rewrite py_list_spec. Qed.

(** A computation that emits [L] and then, if it ends normally, goes on
    silently, emits [L]. *)
Lemma exactly_bind_quiet {A B} L (m : M S A) (f : A -> M S B) :
  exactly L m -> (forall a, exactly [] (f a)) -> exactly L (bind m f).
Proof.
  intros Hm Hf s. rewrite bind_eq. specialize (Hm s).
  destruct (m s) as [[a|e] s' t]; [|done].
  specialize (Hf a s'). destruct (f a s') as [r s'' t']. simpl in *.
  by rewrite steps_of_app, Hm, Hf, app_nil_r.
Qed.

Lemma exactly_for_each {X} (l : list X) (body : X -> M S unit) :
  (forall x, exactly [] (body x)) -> exactly [] (for_each l body).
Proof.
  intros Hb. induction l as [|x l IH]; simpl; [apply exactly_ret|].
  apply exactly_bind_quiet; [apply Hb | intros _; apply IH].
Qed.

(** [print] always ends normally, so what follows it always runs. *)
Lemma exactly_after_print {B} t args x L (k : M S B) :
  step_of (Print t args) = x -> exactly L k ->
  exactly (option_list x ++ L) (print t args ;; k).
Proof.
  intros <- Hk s. rewrite bind_eq, print_eq.
  specialize (Hk s). destruct (k s) as [r s' t']. simpl in *.
  rewrite Hk. by destruct (step_of (Print t args)).
Qed.

Lemma exactly_try_except {A} L (body : M S A) catches handler :
  exactly L body -> (forall e, exactly [] (handler e)) ->
  exactly L (try_except body catches handler).
Proof.
  intros Hb Hh s. unfold try_except. specialize (Hb s).
  destruct (body s) as [[a|e] s' t]; [done|].
  destruct (catches e); [|done].
  specialize (Hh e s'). destruct (handler e s') as [r s'' t']. simpl in *.
  by rewrite steps_of_app, Hb, Hh, app_nil_r.
Qed.

Lemma starts_exactly {A} L (m : M S A) : exactly L m -> starts L m.
Proof. intros Hm s. rewrite (Hm s). done. Qed.

Lemma starts_bind {A B} L1 L2 (m : M S A) (f : A -> M S B) :
  starts L1 m -> (forall a, starts L2 (f a)) -> starts (L1 ++ L2) (bind m f).
Proof.
  intros Hm Hf s. rewrite bind_eq. destruct (Hm s) as [Hp Hall].
  destruct (m s) as [[a|e] s' t]; simpl in *.
  - specialize (Hall a eq_refl). destruct (Hf a s') as [Hp' Hall'].
    destruct (f a s') as [r s'' t']. simpl in *.
    rewrite steps_of_app, Hall. split.
    + by apply prefix_app.
    + intros b ->. by rewrite (Hall' b).
  - split; [|done]. by apply prefix_app_r.
Qed.


End Steps.

(** ** The steps of the methods *)

Section MethodSteps.
Context {S : Type}.
Variable E : Env.

Local Ltac quiet :=
  repeat first
    [ apply exactly_ret | apply exactly_raise | apply exactly_header
    | apply exactly_deref | apply exactly_setitem | apply exactly_getitem
    | apply exactly_str_add | apply exactly_first_item | apply exactly_py_list
    | apply (exactly_print _ _ None); reflexivity
    | apply exactly_for_each; intros ?
    | apply exactly_bind_quiet; [|intros ?] ].

Lemma conflict_or_failure_quiet on_conflict e :
  exactly [] on_conflict ->
  exactly [] (DocumentManagement.conflict_or_failure (S := S) on_conflict e).
Proof.
  intros H. unfold DocumentManagement.conflict_or_failure.
  destruct (status_code e) as [code|]; [|apply exactly_raise].
  destruct (code =? 409); [done | apply exactly_raise].
Qed.

Lemma Initialize_steps (client : Client S) :
  starts [Started MInitialize;
          Called (CCreateDatabase (VDict {["id" := VStr (DATABASE_ID E)]}));
          Called (CCreateCollection (database_link E)
                    (DocumentManagement.collection_definition E))]
    (DocumentManagement.Initialize E client).
Proof.
  unfold DocumentManagement.Initialize.
  apply (starts_bind [Started MInitialize] [_; _]).
  { apply starts_exactly, (exactly_print _ _ (Some (Started MInitialize))). reflexivity. }
  intros _. apply (starts_bind [_] [_]).
  { apply starts_exactly, exactly_try_except.
    - apply exactly_bind_quiet; [apply exactly_invoke | intros ?; quiet].
    - intros e. apply conflict_or_failure_quiet. quiet. }
  intros _. apply (starts_bind [_] []).
  { apply starts_exactly, exactly_try_except.
    - apply exactly_bind_quiet; [apply exactly_invoke | intros ?; quiet].
    - intros e. apply conflict_or_failure_quiet. quiet. }
  intros _. apply starts_exactly, exactly_ret.
Qed.

Lemma ReadDocument_steps (client : Client S) (doc_id account_number : string) :
  exactly [Started MReadDocument;
           Called (CReadDocument ((collection_link E +:+ "/docs/") +:+ doc_id)
                     (VDict {["partitionKey" := VStr account_number]}))]
    (DocumentManagement.ReadDocument E client doc_id account_number).
Proof.
  unfold DocumentManagement.ReadDocument.
  apply (exactly_after_print _ _ (Some (Started MReadDocument)) [_]); [reflexivity|].
  cbv zeta. apply exactly_bind_quiet; [apply exactly_invoke | intros ?; quiet].
Qed.

Lemma ReadDocuments_steps (client : Client S) :
  exactly [Started MReadDocuments;
           Called (CReadDocuments (collection_link E) (VDict {["maxItemCount" := VInt 10]}))]
    (DocumentManagement.ReadDocuments E client).
Proof.
  unfold DocumentManagement.ReadDocuments.
  apply (exactly_after_print _ _ (Some (Started MReadDocuments)) [_]); [reflexivity|].
  cbv zeta. apply exactly_bind_quiet; [apply exactly_invoke | intros ?; quiet].
Qed.

Lemma QueryDocuments_steps (client : Client S) (account_number : string) :
  exactly [Started MQueryDocuments;
           Called (CQueryDocuments (collection_link E)
                     (VDict {["query" := VStr (DocumentManagement.query_text account_number)]}))]
    (DocumentManagement.QueryDocuments E client account_number).
Proof.
  unfold DocumentManagement.QueryDocuments.
  apply (exactly_after_print _ _ (Some (Started MQueryDocuments)) [_]); [reflexivity|].
  cbv zeta. apply exactly_bind_quiet; [apply exactly_invoke | intros ?; quiet].
Qed.

End MethodSteps.

(** ** The steps of the script *)








(** On the seeded in-memory service nothing fails, and the run is the whole
    plan. *)
Example run_sample_whole_plan :
  let o := run_sample Mock.env Mock.client (State Mock.seeded []) in
  res o = Ok VNone /\
  steps_of (trace o) =
    plan Mock.env "dbs/db/colls/coll/docs/SalesOrder1"
      (VDict (shipped_now Mock.env Mock.order1)) /\
  started_methods (steps_of (trace o)) = fixed_sequence.
Proof. vm_compute. repeat split. Qed.

(** * Further properties of the script *)

(** ** The context manager *)

(** X10.  [IDisposable] is transparent: a [with] statement over it runs its
    body on the wrapped object and changes nothing about the run.  The state
    and the output are the body's; a normal end stays normal and an exception
    of the body leaves the statement as it is, never suppressed. *)
Theorem IDisposable_is_transparent {S T} (x : T) (body : T -> M S value) (s : state S) :
  let o := with_statement (ret (IDisposable.new x)) IDisposable.__enter__
             IDisposable.__exit__ body s in
  let b := body x s in
  final o = final b /\ trace o = trace b /\
  res o = match res b with Ok _ => Ok VNone | Raise e => Raise e end.
Proof.
  intros o b. subst o b. unfold with_statement.
  rewrite bind_eq, ret_eq. cbv beta iota. rewrite bind_eq.
  unfold IDisposable.__enter__, IDisposable.__exit__. rewrite !ret_eq. cbv beta iota.
  cbn [IDisposable.obj].
  destruct (body x s) as [[v|e] s' t]; cbn; by rewrite app_nil_r.
Qed.

(** ** How run_sample ends *)

(** A run of [run_sample] once the client is made, from the run of the body
    of its [try] statement. *)
Lemma run_sample_run {S} (E : Env) (client : Client S) (s : state S) (u : unit) (sv : S) :
  document_client.DocumentClient client (HOST E)
    (VDict {["masterKey" := VStr (MASTER_KEY E)]}) (service s) = (Ok u, sv) ->
  let made := Call (CDocumentClient (HOST E) (VDict {["masterKey" := VStr (MASTER_KEY E)]})) in
  let done_ := Print (nl +:+ "run_sample done") [] in
  run_sample E client s =
  match sample_steps E client (State sv (heap s)) with
  | Outcome (Ok _) s2 t => Outcome (Ok VNone) s2 (made :: t ++ [done_])
  | Outcome (Raise e) s2 t =>
      if isinstance_HTTPFailure e then
        match message_attr E e with
        | Some msg =>
            Outcome (Ok VNone) s2
              (made :: t ++ [Print (nl +:+ "run_sample has caught an error. {0}") [PVal msg];
                             done_])
        | None => Outcome (Raise (AttributeError "message")) s2 (made :: t ++ [done_])
        end
      else Outcome (Raise e) s2 (made :: t ++ [done_])
  end.
Proof.
  intros Hnew made done_. unfold run_sample, with_statement, new_client.
  rewrite !bind_eq, (invoke_eq _ _ _ _ _ Hnew). cbv beta iota.
  rewrite !ret_eq. cbv beta iota. rewrite bind_eq.
  unfold IDisposable.__enter__, IDisposable.__exit__. rewrite !ret_eq. cbv beta iota.
  cbn [IDisposable.obj]. unfold try_finally, try_except.
  destruct (sample_steps E client (State sv (heap s))) as [[v|e] s2 t].
  - rewrite print_eq. cbn. by rewrite !app_nil_r.
  - destruct (isinstance_HTTPFailure e).
    + rewrite bind_eq. unfold getattr_message.
      destruct (message_attr E e) as [msg|];
        repeat (first [rewrite bind_eq | rewrite print_eq | rewrite ret_eq | rewrite raise_eq];
                cbv beta iota);
        cbn; by rewrite ?app_nil_r, <- ?app_assoc.
    + rewrite print_eq. cbn. by rewrite !app_nil_r.
Qed.

Lemma last_cons_snoc {A} (a x : A) (l : list A) : last (a :: l ++ [x]) = Some x.
Proof. rewrite app_comm_cons. apply last_snoc. Qed.

(** X1.  Once the client is made, the [finally] clause runs on every path:
    whatever the steps do, and whether or not their exception is caught, the
    last thing a run of [run_sample] prints is the line [run_sample done]. *)
Theorem run_sample_done_is_printed_last {S} (E : Env) (client : Client S) (s : state S)
    (u : unit) (sv : S) :
  document_client.DocumentClient client (HOST E)
    (VDict {["masterKey" := VStr (MASTER_KEY E)]}) (service s) = (Ok u, sv) ->
  last (trace (run_sample E client s)) = Some (Print (nl +:+ "run_sample done") []).
Proof.
  intros Hnew. rewrite (run_sample_run E client s u sv Hnew).
  destruct (sample_steps E client (State sv (heap s))) as [[v|e] s2 t].
  - apply last_cons_snoc.
  - destruct (isinstance_HTTPFailure e); [destruct (message_attr E e) as [msg|]|].
    + cbn [trace]. rewrite (cons_middle _ t [_]), app_assoc. apply last_cons_snoc.
    + apply last_cons_snoc.
    + apply last_cons_snoc.
Qed.

(** X1 on the in-memory service with an empty store: the read step fails
    with status 404, the failure is caught, and the run still ends on the
    line [run_sample done]. *)
Lemma run_sample_done_is_printed_last_witness :
  let s := State Mock.empty [] in
  document_client.DocumentClient Mock.client (HOST Mock.env)
    (VDict {["masterKey" := VStr (MASTER_KEY Mock.env)]}) (service s) = (Ok tt, Mock.empty) /\
  last (trace (run_sample Mock.env Mock.client s)) = Some (Print (nl +:+ "run_sample done") []).
Proof.
  split; [reflexivity|].
  exact (run_sample_done_is_printed_last Mock.env Mock.client (State Mock.empty []) tt
           Mock.empty eq_refl).
Defined.

(** X2.  How [run_sample] ends, once the client is made.  It ends normally
    when its steps do, and also when they raise an [HTTPFailure] whose
    [message] can be read: that failure is swallowed.  An [HTTPFailure]
    whose [message] attribute is missing is replaced by the [AttributeError]
    of the handler.  Any other exception leaves [run_sample] as it is, a
    [DocumentDBError] that is not an [HTTPFailure] included.  The state is
    the one the steps left. *)
Theorem run_sample_swallows_HTTPFailure_only {S} (E : Env) (client : Client S)
    (s : state S) (u : unit) (sv : S) :
  document_client.DocumentClient client (HOST E)
    (VDict {["masterKey" := VStr (MASTER_KEY E)]}) (service s) = (Ok u, sv) ->
  let b := sample_steps E client (State sv (heap s)) in
  let o := run_sample E client s in
  final o = final b /\
  res o = match res b with
          | Ok _ => Ok VNone
          | Raise e =>
              if isinstance_HTTPFailure e then
                match message_attr E e with
                | Some _ => Ok VNone
                | None => Raise (AttributeError "message")
                end
              else Raise e
          end /\
  (forall code, res b = Raise (DocumentDBError code) -> res o = Raise (DocumentDBError code)) /\
  (forall e msg, res b = Raise e -> isinstance_HTTPFailure e = true ->
     message_attr E e = Some msg ->
     Print (nl +:+ "run_sample has caught an error. {0}") [PVal msg] ∈ trace o).
Proof.
  intros Hnew b o. subst b o. rewrite (run_sample_run E client s u sv Hnew).
  destruct (sample_steps E client (State sv (heap s))) as [[v|e] s2 t]; cbn [res final trace].
  - split; [done|]. split; [done|]. split; intros; discriminate.
  - split; [by destruct (isinstance_HTTPFailure e), (message_attr E e)|].
    split; [by destruct (isinstance_HTTPFailure e), (message_attr E e)|]. split.
    + intros code [= ->]. reflexivity.
    + intros e' msg [= <-] -> ->. cbn [trace]. set_solver.
Qed.

(** X2 when exception objects have no [message]: on the empty store the
    read step fails with an [HTTPFailure], and what leaves [run_sample] is
    the [AttributeError] of the handler. *)
Lemma run_sample_swallows_HTTPFailure_only_witness :
  let s := State Mock.empty [] in
  document_client.DocumentClient Mock.client (HOST Mock.env_without_message)
    (VDict {["masterKey" := VStr (MASTER_KEY Mock.env_without_message)]}) (service s)
    = (Ok tt, Mock.empty) /\
  res (sample_steps Mock.env_without_message Mock.client s) = Raise (HTTPFailure 404) /\
  res (run_sample Mock.env_without_message Mock.client s) = Raise (AttributeError "message").
Proof.
  assert (Hb : res (sample_steps Mock.env_without_message Mock.client (State Mock.empty []))
               = Raise (HTTPFailure 404)) by (vm_compute; reflexivity).
  split; [reflexivity|]. split; [exact Hb|].
  destruct (run_sample_swallows_HTTPFailure_only Mock.env_without_message Mock.client
              (State Mock.empty []) tt Mock.empty eq_refl) as (_ & Hres & _).
  cbn [heap] in Hres. rewrite Hb in Hres. exact Hres.
Defined.

(** ** How the script ends *)

(** X11.  Whatever the client does, the script never ends with an exception
    that is an instance of [Exception]: it ends normally, or with an exception
    that is not one ([KeyboardInterrupt], [SystemExit]), which is then the
    very exception that left [run_sample]. *)
Theorem main_ends_normally_or_is_interrupted {S} (E : Env) (client : Client S)
    (s : state S) :
  res (main E client s) = Ok VNone \/
  exists e, res (main E client s) = Raise e /\ isinstance_Exception e = false /\
            res (run_sample E client s) = Raise e.
Proof.
  unfold main, try_except. rewrite bind_eq.
  destruct (run_sample E client s) as [[v|e] s' t]; [left; reflexivity|].
  destruct (isinstance_Exception e) eqn:He; [left; reflexivity|].
  right. exists e. done.
Qed.

(** ** More on Initialize *)

Section SetupRun.
Context {S : Type}.
Variable E : Env.
Variable client : Client S.

Local Abbreviation db_body := (VDict {["id" := VStr (DATABASE_ID E)]}).
Local Abbreviation coll_body := (DocumentManagement.collection_definition E).

(** The whole run of [Initialize], from the client's answers to its two
    requests. *)
Lemma Initialize_run (s : state S) (r1 r2 : result value) (sv1 sv2 : S) :
  document_client.CreateDatabase client db_body (service s) = (r1, sv1) ->
  document_client.CreateCollection client (database_link E) coll_body sv1 = (r2, sv2) ->
  let first :=
    [Print "Initializing database for samples" []; Call (CCreateDatabase db_body)]
    ++ match r1 with
       | Ok _ => [Print "Database with id '{0}' created" [PVal (VStr (DATABASE_ID E))]]
       | Raise _ => []
       end in
  let second :=
    Call (CCreateCollection (database_link E) coll_body)
    :: match r2, setup_step r2 with
       | Ok _, _ => [Print "Collection with id '{0}' created" [PVal (VStr (COLLECTION_ID E))]]
       | Raise _, Ok _ =>
           [Print "Collection with id '{0}' was found" [PVal (VStr (COLLECTION_ID E))]]
       | Raise _, Raise _ => []
       end in
  DocumentManagement.Initialize E client s =
  match setup_step r1 with
  | Raise e => Outcome (Raise e) (State sv1 (heap s)) first
  | Ok _ =>
      Outcome (match setup_step r2 with Ok _ => Ok VNone | Raise e => Raise e end)
              (State sv2 (heap s)) (first ++ second)
  end.
Proof.
  intros H1 H2 first second. subst first second.
  unfold DocumentManagement.Initialize.
  next. rewrite print_eq. next. unfold try_except at 1.
  next. rewrite (invoke_eq _ _ _ _ _ H1).
  assert (Hsecond : forall k : M S value,
    (forall s', k s' = Outcome (Ok VNone) s' []) ->
    (try_except
       (invoke (CCreateCollection (database_link E) coll_body)
          (document_client.CreateCollection client (database_link E) coll_body) ;;
        print "Collection with id '{0}' created" [PVal (VStr (COLLECTION_ID E))])
       isinstance_DocumentDBError
       (DocumentManagement.conflict_or_failure
          (print "Collection with id '{0}' was found" [PVal (VStr (COLLECTION_ID E))])) ;;
     k) (State sv1 (heap s))
    = Outcome (match setup_step r2 with Ok _ => Ok VNone | Raise e => Raise e end)
        (State sv2 (heap s))
        (Call (CCreateCollection (database_link E) coll_body)
         :: match r2, setup_step r2 with
            | Ok _, _ =>
                [Print "Collection with id '{0}' created" [PVal (VStr (COLLECTION_ID E))]]
            | Raise _, Ok _ =>
                [Print "Collection with id '{0}' was found" [PVal (VStr (COLLECTION_ID E))]]
            | Raise _, Raise _ => []
            end)).
  { intros k Hk. next. unfold try_except. next.
    rewrite (invoke_eq _ _ (State sv1 (heap s)) _ _ H2).
    destruct r2 as [v|e]; [rewrite print_eq, Hk; reflexivity|]. unfold setup_step.
    destruct (isinstance_DocumentDBError e); [|reflexivity].
    unfold DocumentManagement.conflict_or_failure.
    destruct (status_code e) as [code|]; [|reflexivity].
    destruct (code =? 409); [rewrite print_eq, Hk|]; reflexivity. }
  destruct r1 as [v|e].
  - rewrite print_eq. cbv beta iota. rewrite (Hsecond (ret VNone) (fun s0 => eq_refl)).
    by destruct r2.
  - unfold setup_step at 1 2.
    destruct (isinstance_DocumentDBError e); [|reflexivity].
    unfold DocumentManagement.conflict_or_failure at 1.
    destruct (status_code e) as [code|]; [|reflexivity].
    destruct (code =? 409); [|reflexivity].
    rewrite ret_eq. cbv beta iota. rewrite (Hsecond (ret VNone) (fun s0 => eq_refl)).
    by destruct r2.
Qed.
End SetupRun.

(** X3.  When the creation of the database fails with anything but a
    conflict of status 409, [Initialize] stops there: the collection is never
    requested, the service is left as that request left it, and the output
    is the banner alone.  A service error that has a status reaches the
    caller as an [HTTPFailure] of that status; for a service error that has
    none, reading [e.status_code] in the handler fails and the caller gets
    the [AttributeError]; any other exception passes as it is. *)
Theorem Initialize_stops_at_failed_database {S} (E : Env) (client : Client S)
    (s : state S) (e : exn) (sv : S) :
  document_client.CreateDatabase client (VDict {["id" := VStr (DATABASE_ID E)]}) (service s)
    = (Raise e, sv) ->
  status_code e ≠ Some 409 ->
  let o := DocumentManagement.Initialize E client s in
  trace o = [Print "Initializing database for samples" [];
             Call (CCreateDatabase (VDict {["id" := VStr (DATABASE_ID E)]}))] /\
  (forall link body, Call (CCreateCollection link body) ∉ trace o) /\
  final o = State sv (heap s) /\
  res o = if isinstance_DocumentDBError e then
            match status_code e with
            | Some code => Raise (HTTPFailure code)
            | None => Raise (AttributeError "status_code")
            end
          else Raise e.
Proof.
  intros H1 Hne o. subst o.
  destruct (document_client.CreateCollection client (database_link E)
              (DocumentManagement.collection_definition E) sv) as [r2 sv2] eqn:H2.
  rewrite (Initialize_run E client s _ _ _ _ H1 H2).
  assert (Hstep : setup_step (Raise e) =
                  if isinstance_DocumentDBError e then
                    match status_code e with
                    | Some code => Raise (HTTPFailure code)
                    | None => Raise (AttributeError "status_code")
                    end
                  else Raise e).
  { unfold setup_step. destruct (isinstance_DocumentDBError e); [|reflexivity].
    destruct (status_code e) as [code|]; [|reflexivity].
    destruct (code =? 409) eqn:Heq; [apply Z.eqb_eq in Heq; congruence | reflexivity]. }
  rewrite Hstep.
  destruct (isinstance_DocumentDBError e), (status_code e); cbn [trace final res app];
    (split; [reflexivity|]; split; [|split; reflexivity]);
    intros link body Hin; apply elem_of_cons in Hin as [Hin|Hin]; try discriminate;
    apply elem_of_cons in Hin as [Hin|Hin]; try discriminate; by apply elem_of_nil in Hin.
Qed.

(** X3 on a service out of order, where the database request fails with
    status 503 and [Initialize] raises [HTTPFailure 503] without asking for
    the collection, and on a service whose answer cannot be parsed, where
    the request fails with an error that has no status and [Initialize]
    raises the [AttributeError] of the handler. *)
Lemma Initialize_stops_at_failed_database_witness :
  let s := State Mock.empty [] in
  document_client.CreateDatabase Mock.unavailable
    (VDict {["id" := VStr (DATABASE_ID Mock.env)]}) (service s)
    = (Raise (HTTPFailure 503), Mock.empty) /\
  status_code (HTTPFailure 503) ≠ Some 409 /\
  res (DocumentManagement.Initialize Mock.env Mock.unavailable s) = Raise (HTTPFailure 503) /\
  document_client.CreateDatabase Mock.garbled
    (VDict {["id" := VStr (DATABASE_ID Mock.env)]}) (service s)
    = (Raise (ServiceError "JSONParseFailure"), Mock.empty) /\
  status_code (ServiceError "JSONParseFailure") ≠ Some 409 /\
  res (DocumentManagement.Initialize Mock.env Mock.garbled s)
    = Raise (AttributeError "status_code").
Proof.
  assert (Hne : status_code (HTTPFailure 503) ≠ Some 409) by (intros [=]).
  assert (Hne' : status_code (ServiceError "JSONParseFailure") ≠ Some 409) by (intros [=]).
  split; [reflexivity|]. split; [exact Hne|]. split.
  { exact (proj2 (proj2 (proj2 (Initialize_stops_at_failed_database Mock.env Mock.unavailable
                                  (State Mock.empty []) (HTTPFailure 503) Mock.empty
                                  eq_refl Hne)))). }
  split; [reflexivity|]. split; [exact Hne'|].
  exact (proj2 (proj2 (proj2 (Initialize_stops_at_failed_database Mock.env Mock.garbled
                                (State Mock.empty []) (ServiceError "JSONParseFailure")
                                Mock.empty eq_refl Hne')))).
Defined.

(** X4.  When each of the two setup requests succeeds or meets a conflict
    of status 409, the output of [Initialize] tells a collection that was
    created from one that was found, but not so for the database: a created
    database gets its line, a database that exists already leaves none. *)
Theorem Initialize_output {S} (E : Env) (client : Client S) (s : state S)
    (r1 r2 : result value) (sv1 sv2 : S) :
  document_client.CreateDatabase client (VDict {["id" := VStr (DATABASE_ID E)]}) (service s)
    = (r1, sv1) ->
  document_client.CreateCollection client (database_link E)
    (DocumentManagement.collection_definition E) sv1 = (r2, sv2) ->
  (forall e, r1 = Raise e -> is_conflict e) ->
  (forall e, r2 = Raise e -> is_conflict e) ->
  trace (DocumentManagement.Initialize E client s) =
    [Print "Initializing database for samples" [];
     Call (CCreateDatabase (VDict {["id" := VStr (DATABASE_ID E)]}))]
    ++ match r1 with
       | Ok _ => [Print "Database with id '{0}' created" [PVal (VStr (DATABASE_ID E))]]
       | Raise _ => []
       end
    ++ [Call (CCreateCollection (database_link E) (DocumentManagement.collection_definition E));
        match r2 with
        | Ok _ => Print "Collection with id '{0}' created" [PVal (VStr (COLLECTION_ID E))]
        | Raise _ => Print "Collection with id '{0}' was found" [PVal (VStr (COLLECTION_ID E))]
        end].
Proof.
  intros H1 H2 Hc1 Hc2. rewrite (Initialize_run E client s _ _ _ _ H1 H2).
  assert (Ho1 : setup_step r1 = Ok tt).
  { destruct r1 as [v|e1]; [done|]. by apply setup_step_conflict, Hc1. }
  assert (Ho2 : setup_step r2 = Ok tt).
  { destruct r2 as [v|e2]; [done|]. by apply setup_step_conflict, Hc2. }
  rewrite Ho1. cbn [trace]. destruct r2 as [v|e2].
  - by rewrite <- app_assoc.
  - rewrite Ho2. by rewrite <- app_assoc.
Qed.

(** X4 on the seeded in-memory service, where both exist already: the only
    line after the banner is that the collection was found. *)
Lemma Initialize_output_witness :
  let s := State Mock.seeded [] in
  trace (DocumentManagement.Initialize Mock.env Mock.client s)
  = [Print "Initializing database for samples" [];
     Call (CCreateDatabase (VDict {["id" := VStr "db"]}));
     Call (CCreateCollection "dbs/db" (DocumentManagement.collection_definition Mock.env));
     Print "Collection with id '{0}' was found" [PVal (VStr "coll")]].
Proof.
  assert (Hc : forall e, Raise (A := value) (HTTPFailure 409) = Raise e -> is_conflict e).
  { intros e [= <-]. split; reflexivity. }
  cbv zeta.
  rewrite (Initialize_output Mock.env Mock.client (State Mock.seeded [])
             (Raise (HTTPFailure 409)) (Raise (HTTPFailure 409)) Mock.seeded Mock.seeded
             eq_refl eq_refl Hc Hc).
  reflexivity.
Defined.

(** ** ReadDocument *)

(** X5.  When the read succeeds, [ReadDocument] returns nothing and prints
    the banner, the id it was asked for and the request charge; the charge is
    read from the response headers as they are after the request ([None]
    when the header is not there), and nothing of the document read reaches
    the output.  The service is left as the request left it. *)
Theorem ReadDocument_reports_request_charge {S} (E : Env) (client : Client S)
    (doc_id account_number : string) (s : state S) (response : value) (sv : S) :
  document_client.ReadDocument client ((collection_link E +:+ "/docs/") +:+ doc_id)
    (VDict {["partitionKey" := VStr account_number]}) (service s) = (Ok response, sv) ->
  DocumentManagement.ReadDocument E client doc_id account_number s =
  Outcome (Ok VNone) (State sv (heap s))
    [Print ((nl +:+ "1.2 - Reading Document by Id") +:+ nl) [];
     Call (CReadDocument ((collection_link E +:+ "/docs/") +:+ doc_id)
             (VDict {["partitionKey" := VStr account_number]}));
     Print "Document read by Id {0}" [PVal (VStr doc_id)];
     Print "Request Units Charge for reading a Document by Id {0}"
       [PVal (match document_client.last_response_headers client sv !! "x-ms-request-charge" with
              | Some charge => charge
              | None => VNone
              end)]].
Proof.
  intros H. unfold DocumentManagement.ReadDocument.
  next. rewrite print_eq. next. rewrite (invoke_eq _ _ _ _ _ H).
  next. rewrite print_eq. next. rewrite header_eq. next. rewrite print_eq, ret_eq.
  reflexivity.
Qed.

(** X5 on the seeded in-memory service, whose charge is always 1. *)
Lemma ReadDocument_reports_request_charge_witness :
  let s := State Mock.seeded [] in
  document_client.ReadDocument Mock.client
    ((collection_link Mock.env +:+ "/docs/") +:+ "SalesOrder1")
    (VDict {["partitionKey" := VStr "Account1"]}) (service s)
    = (Ok (VDict Mock.order1), Mock.seeded) /\
  last (trace (DocumentManagement.ReadDocument Mock.env Mock.client "SalesOrder1" "Account1" s))
    = Some (Print "Request Units Charge for reading a Document by Id {0}" [PVal (VStr "1")]).
Proof.
  assert (H : document_client.ReadDocument Mock.client
                ((collection_link Mock.env +:+ "/docs/") +:+ "SalesOrder1")
                (VDict {["partitionKey" := VStr "Account1"]}) (service (State Mock.seeded []))
              = (Ok (VDict Mock.order1), Mock.seeded)) by (vm_compute; reflexivity).
  split; [exact H|].
  rewrite (ReadDocument_reports_request_charge Mock.env Mock.client "SalesOrder1" "Account1"
             (State Mock.seeded []) _ _ H).
  reflexivity.
Defined.

(** ** More on ReplaceDocument *)

(** X6.  An order without a string [id] cannot be replaced, and is changed
    all the same: [ReplaceDocument] raises [KeyError] when the [id] is
    missing and [TypeError] when it is not a string, nothing is submitted to
    the client and the service is untouched, but the caller's order has had
    its [shipped_date] overwritten by then. *)
Theorem ReplaceDocument_without_string_id {S} (E : Env) (client : Client S)
    (s : state S) (order : loc) (d : dict) :
  heap s !! order = Some d ->
  (forall i, d !! "id" ≠ Some (VStr i)) ->
  let o := DocumentManagement.ReplaceDocument E client order s in
  res o = match d !! "id" with
          | None => Raise (KeyError "id")
          | Some _ => Raise TypeError
          end /\
  trace o = [Print (nl +:+ "1.5 - Replacing a document using its Id") []] /\
  service (final o) = service s /\
  heap (final o) !! order = Some (<["shipped_date" := VStr (now_c E)]> d).
Proof.
  intros Hd Hid o. subst o.
  assert (Hlt : (order < length (heap s))%nat) by (by eapply lookup_lt_Some).
  rewrite (ReplaceDocument_run E client s order d Hd).
  destruct (d !! "id") as [v|] eqn:Hv.
  - destruct v; try (cbn; split; [done|]; split; [done|]; split; [done|];
                     by apply list_lookup_insert_eq).
    by destruct (Hid s0).
  - cbn. split; [done|]. split; [done|]. split; [done|]. by apply list_lookup_insert_eq.
Qed.

(** X6 on an order that has no [id]. *)
Lemma ReplaceDocument_without_string_id_witness :
  let s := State Mock.seeded [Mock.anonymous_order] in
  heap s !! 0%nat = Some Mock.anonymous_order /\
  (forall i, Mock.anonymous_order !! "id" ≠ Some (VStr i)) /\
  res (DocumentManagement.ReplaceDocument Mock.env Mock.client 0%nat s) = Raise (KeyError "id") /\
  heap (final (DocumentManagement.ReplaceDocument Mock.env Mock.client 0%nat s)) !! 0%nat
    = Some (<["shipped_date" := VStr (now_c Mock.env)]> Mock.anonymous_order).
Proof.
  assert (Hid : forall i, Mock.anonymous_order !! "id" ≠ Some (VStr i)).
  { intros i H. vm_compute in H. discriminate. }
  split; [reflexivity|]. split; [exact Hid|].
  destruct (ReplaceDocument_without_string_id Mock.env Mock.client
              (State Mock.seeded [Mock.anonymous_order]) 0%nat Mock.anonymous_order
              eq_refl Hid) as (Hres & _ & _ & Hheap).
  split; [exact Hres | exact Hheap].
Defined.

(** X7.  When the client answers a replacement with a record that has no
    [shipped_date], [ReplaceDocument] raises [KeyError], and it does so
    after the replacement went through: the record was submitted, the service
    is in the state the request left, and the request charge was printed. *)
Theorem ReplaceDocument_result_without_shipped_date {S} (E : Env) (client : Client S)
    (s : state S) (order : loc) (d : dict) (i : string) (result : dict) (sv : S) :
  heap s !! order = Some d ->
  d !! "id" = Some (VStr i) ->
  document_client.ReplaceDocument client ((collection_link E +:+ "/docs/") +:+ i)
    (VDict (<["shipped_date" := VStr (now_c E)]> d)) (service s) = (Ok result, sv) ->
  result !! "shipped_date" = None ->
  let o := DocumentManagement.ReplaceDocument E client order s in
  res o = Raise (KeyError "shipped_date") /\
  service (final o) = sv /\
  trace o =
    [Print (nl +:+ "1.5 - Replacing a document using its Id") [];
     Call (CReplaceDocument ((collection_link E +:+ "/docs/") +:+ i)
             (VDict (<["shipped_date" := VStr (now_c E)]> d)));
     Print "Request charge of replace operation: {0}"
       [PVal (dict_get (document_client.last_response_headers client sv)
                "x-ms-request-charge")]].
Proof.
  intros Hd Hid Hr Hnone o. subst o.
  rewrite (ReplaceDocument_run E client s order d Hd), Hid. cbv zeta.
  unfold shipped_now. rewrite Hr, Hnone. done.
Qed.

(** X7 on a service that answers a replacement with the bare id. *)
Lemma ReplaceDocument_result_without_shipped_date_witness :
  let s := State Mock.seeded [Mock.order1] in
  heap s !! 0%nat = Some Mock.order1 /\
  Mock.order1 !! "id" = Some (VStr "SalesOrder1") /\
  res (DocumentManagement.ReplaceDocument Mock.env Mock.terse 0%nat s)
    = Raise (KeyError "shipped_date").
Proof.
  split; [reflexivity|]. split; [reflexivity|].
  assert (Hr : exists sv,
    document_client.ReplaceDocument Mock.terse
      ((collection_link Mock.env +:+ "/docs/") +:+ "SalesOrder1")
      (VDict (<["shipped_date" := VStr (now_c Mock.env)]> Mock.order1))
      (service (State Mock.seeded [Mock.order1]))
    = (Ok {["id" := VStr "SalesOrder1"]}, sv)) by (eexists; vm_compute; reflexivity).
  destruct Hr as [sv Hr].
  exact (proj1 (ReplaceDocument_result_without_shipped_date Mock.env Mock.terse
                  (State Mock.seeded [Mock.order1]) 0%nat Mock.order1 "SalesOrder1"
                  _ sv eq_refl eq_refl Hr eq_refl)).
Defined.

(** ** More on QueryDocuments *)

(** X8.  [QueryDocuments] announces a document before it looks for one:
    whenever the query itself succeeds, the last line printed is
    [Found document with account_number] with the account number asked for,
    also when no record was yielded and the call ends in [IndexError]; the
    service is left as the query left it. *)
Theorem QueryDocuments_announces_before_it_looks {S} (E : Env) (client : Client S)
    (account_number : string) (s : state S) (docs : list dict) (sv : S) :
  document_client.QueryDocuments client (collection_link E)
    (VDict {["query" := VStr (DocumentManagement.query_text account_number)]}) (service s)
    = (Ok docs, sv) ->
  let o := DocumentManagement.QueryDocuments E client account_number s in
  last (trace o)
    = Some (Print "Found document with account_number: {0}" [PVal (VStr account_number)]) /\
  (res o = Raise IndexError <-> docs = []) /\
  service (final o) = sv.
Proof.
  intros Hq o. subst o. rewrite (QueryDocuments_run E client account_number s _ _ Hq).
  cbn. split; [reflexivity|]. split; [|reflexivity].
  destruct docs; split; intros H; done.
Qed.

(** X8 on the seeded in-memory service, asked for an account nobody has. *)
Lemma QueryDocuments_announces_before_it_looks_witness :
  let s := State Mock.seeded [] in
  document_client.QueryDocuments Mock.client (collection_link Mock.env)
    (VDict {["query" := VStr (DocumentManagement.query_text "Nobody")]}) (service s)
    = (Ok [], Mock.seeded) /\
  last (trace (DocumentManagement.QueryDocuments Mock.env Mock.client "Nobody" s))
    = Some (Print "Found document with account_number: {0}" [PVal (VStr "Nobody")]).
Proof.
  assert (H : document_client.QueryDocuments Mock.client (collection_link Mock.env)
                (VDict {["query" := VStr (DocumentManagement.query_text "Nobody")]})
                (service (State Mock.seeded [])) = (Ok [], Mock.seeded))
    by (vm_compute; reflexivity).
  split; [exact H|].
  exact (proj1 (QueryDocuments_announces_before_it_looks Mock.env Mock.client "Nobody"
                  (State Mock.seeded []) [] Mock.seeded H)).
Defined.

Lemma append_quote_inj (a b : string) : a +:+ "'" = b +:+ "'" -> a = b.
Proof.
  revert b. induction a as [|x a IH]; intros [|y b] H; simpl in H.
  - reflexivity.
  - injection H as _ H. destruct b; discriminate.
  - injection H as _ H. destruct a; discriminate.
  - injection H as -> H. f_equal. by apply IH.
Qed.

(** X9.  The text of the query determines the account number: two account
    numbers that give the same query text are the same string, so no two
    different account numbers are ever asked for with one query. *)
Theorem query_text_inj (a b : string) :
  DocumentManagement.query_text a = DocumentManagement.query_text b -> a = b.
Proof.
  unfold DocumentManagement.query_text. intros H.
  apply append_quote_inj in H. by apply (inj (String.app _)) in H.
Qed.

(** X9 at the account number of the sample run, written in two ways. *)
Lemma query_text_inj_witness :
  DocumentManagement.query_text ("Account" +:+ "1") = DocumentManagement.query_text "Account1" /\
  "Account" +:+ "1" = "Account1".
Proof.
  split; [reflexivity|].
  exact (query_text_inj ("Account" +:+ "1") "Account1" eq_refl).
Defined.

(** ** From the query to the replacement *)

Lemma call_in_steps (t : list event) (c : client_call) :
  Call c ∈ t -> Called c ∈ steps_of t.
Proof.
  intros Hin. unfold steps_of. apply list_elem_of_omap. exists (Call c). done.
Qed.

Lemma not_called (L : list step) (t : list event) (c : client_call) :
  steps_of t `prefix_of` L -> Called c ∉ L -> Call c ∉ t.
Proof.
  intros [k Hk] Hn Hin. apply Hn. rewrite Hk.
  apply elem_of_app. left. by apply call_in_steps.
Qed.

Lemma in_bind_trace {S A B} (m : M S A) (f : A -> M S B) (s : state S) (x : event) :
  x ∈ trace (bind m f s) ->
  x ∈ trace (m s) \/ exists a, res (m s) = Ok a /\ x ∈ trace (f a (final (m s))).
Proof.
  rewrite bind_eq. destruct (m s) as [[a|e] s' t]; [|by left].
  destruct (f a s') as [r s'' t'] eqn:Hf. cbn. intros [Hin|Hin]%elem_of_app; [by left|].
  right. exists a. by rewrite Hf.
Qed.

Local Ltac not_in_list :=
  let H := fresh in
  intros H; repeat (apply elem_of_cons in H as [H|H]; [discriminate|]);
  by apply elem_of_nil in H.

(** X12.  What [run_sample] replaces is what its query found: whenever the
    steps of the script submit a record for replacement, the query for
    [Account1], put to the service as [Initialize], [ReadDocument] and
    [ReadDocuments] left it, had yielded at least one record, and the record
    submitted is the first one yielded with its [shipped_date] set to the
    current time, under the link of that record's own [id]. *)
Theorem replaced_record_is_first_queried {S} (E : Env) (client : Client S) (s : state S)
    (link : string) (doc : value) :
  Call (CReplaceDocument link doc) ∈ trace (sample_steps E client s) ->
  let s1 := final (DocumentManagement.Initialize E client s) in
  let s2 := final (DocumentManagement.ReadDocument E client "SalesOrder1" "Account1" s1) in
  let s3 := final (DocumentManagement.ReadDocuments E client s2) in
  exists d ds sv',
    document_client.QueryDocuments client (collection_link E)
      (VDict {["query" := VStr (DocumentManagement.query_text "Account1")]}) (service s3)
      = (Ok (d :: ds), sv') /\
    doc = VDict (<["shipped_date" := VStr (now_c E)]> d) /\
    exists i, d !! "id" = Some (VStr i) /\ link = (collection_link E +:+ "/docs/") +:+ i.
Proof.
  unfold sample_steps. intros Hin.
  apply in_bind_trace in Hin as [Hin|(v1 & _ & Hin)].
  { exfalso. revert Hin. eapply not_called; [apply (Initialize_steps E client s)|].
    not_in_list. }
  set (s1 := final (DocumentManagement.Initialize E client s)) in Hin.
  apply in_bind_trace in Hin as [Hin|(v2 & _ & Hin)].
  { exfalso. revert Hin.
    eapply not_called; [rewrite (ReadDocument_steps E client _ _ s1); reflexivity|].
    not_in_list. }
  set (s2 := final (DocumentManagement.ReadDocument E client _ _ s1)) in Hin.
  apply in_bind_trace in Hin as [Hin|(v3 & _ & Hin)].
  { exfalso. revert Hin.
    eapply not_called; [rewrite (ReadDocuments_steps E client s2); reflexivity|].
    not_in_list. }
  set (s3 := final (DocumentManagement.ReadDocuments E client s2)) in Hin.
  apply in_bind_trace in Hin as [Hin|(order & Hres & Hin)].
  { exfalso. revert Hin.
    eapply not_called; [rewrite (QueryDocuments_steps E client _ s3); reflexivity|].
    not_in_list. }
  destruct (document_client.QueryDocuments client (collection_link E)
              (VDict {["query" := VStr (DocumentManagement.query_text "Account1")]})
              (service s3)) as [r sv'] eqn:Hq.
  rewrite (QueryDocuments_run E client "Account1" s3 r sv' Hq) in Hres, Hin.
  destruct r as [[|d ds]|e]; cbn [res final] in Hres, Hin; try discriminate.
  injection Hres as <-.
  assert (Hd : heap (State sv' (heap s3 ++ d :: ds)) !! length (heap s3) = Some d).
  { cbn [heap]. by rewrite lookup_app_r, Nat.sub_diag by lia. }
  destruct (ReplaceDocument_submitted E client _ _ d link doc Hd Hin) as [-> Hlink].
  exists d, ds, sv'. done.
Qed.

(** X12 on the seeded in-memory service: the order stored for [Account1] is
    the one replaced. *)
Lemma replaced_record_is_first_queried_witness :
  let s := State Mock.seeded [] in
  let link := "dbs/db/colls/coll/docs/SalesOrder1" in
  let doc := VDict (<["shipped_date" := VStr (now_c Mock.env)]> Mock.order1) in
  Call (CReplaceDocument link doc) ∈ trace (sample_steps Mock.env Mock.client s) /\
  exists d ds sv',
    document_client.QueryDocuments Mock.client (collection_link Mock.env)
      (VDict {["query" := VStr (DocumentManagement.query_text "Account1")]}) Mock.seeded
      = (Ok (d :: ds), sv') /\
    doc = VDict (<["shipped_date" := VStr (now_c Mock.env)]> d) /\
    exists i, d !! "id" = Some (VStr i) /\
              link = (collection_link Mock.env +:+ "/docs/") +:+ i.
Proof.
  assert (Hin : Call (CReplaceDocument "dbs/db/colls/coll/docs/SalesOrder1"
                        (VDict (<["shipped_date" := VStr (now_c Mock.env)]> Mock.order1)))
                ∈ trace (sample_steps Mock.env Mock.client (State Mock.seeded []))).
  { vm_compute. repeat constructor. }
  split; [exact Hin|].
  exact (replaced_record_is_first_queried Mock.env Mock.client (State Mock.seeded []) _ _ Hin).
Defined.

(** ** The rest of the script *)

(** X15.  When the construction of the client raises, [run_sample] raises
    that exception and does nothing else: the [try] statement is never
    entered, so no step runs and nothing is printed, not even the line of
    the [finally] clause. *)
Theorem run_sample_without_client {S} (E : Env) (client : Client S) (s : state S)
    (e : exn) (sv : S) :
  document_client.DocumentClient client (HOST E)
    (VDict {["masterKey" := VStr (MASTER_KEY E)]}) (service s) = (Raise e, sv) ->
  run_sample E client s =
  Outcome (Raise e) (State sv (heap s))
    [Call (CDocumentClient (HOST E) (VDict {["masterKey" := VStr (MASTER_KEY E)]}))].
Proof.
  intros Hnew. unfold run_sample, with_statement, new_client.
  rewrite !bind_eq. by rewrite (invoke_eq _ _ _ _ _ Hnew).
Qed.

(** The in-memory client when the account cannot be reached. *)
Lemma run_sample_without_client_witness :
  let refused : Client Mock.store := {|
    document_client.DocumentClient := fun _ _ st => (Raise (HTTPFailure 401), st);
    document_client.CreateDatabase := Mock.CreateDatabase;
    document_client.CreateCollection := Mock.CreateCollection;
    document_client.CreateDocument := Mock.CreateDocument;
    document_client.ReadDocument := Mock.ReadDocument;
    document_client.ReadDocuments := Mock.ReadDocuments;
    document_client.QueryDocuments := Mock.QueryDocuments;
    document_client.ReplaceDocument := Mock.ReplaceDocument;
    document_client.last_response_headers := fun _ => ∅;
    document_client.close := fun st => (Ok tt, st)
  |} in
  res (run_sample Mock.env refused (State Mock.seeded [])) = Raise (HTTPFailure 401) /\
  length (trace (run_sample Mock.env refused (State Mock.seeded []))) = 1%nat.
Proof.
  intros refused.
  rewrite (run_sample_without_client Mock.env refused (State Mock.seeded [])
             (HTTPFailure 401) Mock.seeded eq_refl).
  split; reflexivity.
Defined.

(** X14.  [ReadDocuments] reads the id of a record with [get], so a record
    that has no [id] does not stop the listing: whatever records the client
    yields, the method ends normally, and the line of a record without an
    [id] shows [None]. *)
Theorem ReadDocuments_lists_records_without_id {S} (E : Env) (client : Client S)
    (s : state S) (docs : list dict) (sv : S) (n : nat) (d : dict) :
  document_client.ReadDocuments client (collection_link E)
    (VDict {["maxItemCount" := VInt 10]}) (service s) = (Ok docs, sv) ->
  docs !! n = Some d ->
  d !! "id" = None ->
  let o := DocumentManagement.ReadDocuments E client s in
  res o = Ok VNone /\
  trace o !! (2 + n)%nat = Some (Print "Document Id: {0}" [PVal VNone]).
Proof.
  intros Hread Hn Hid o. subst o. unfold DocumentManagement.ReadDocuments.
  next. rewrite print_eq. next. rewrite (invoke_eq _ _ _ _ _ Hread).
  next. rewrite py_list_spec. next. cbn [service heap].
  rewrite for_each_id_lines, ret_eq. simpl. split; [reflexivity|].
  rewrite app_nil_r, list_lookup_fmap, Hn. simpl. unfold id_line, dict_get. by rewrite Hid.
Qed.

(** X14 on a collection whose second record has no [id]. *)
Lemma ReadDocuments_lists_records_without_id_witness :
  let st := Mock.Store {["db"]} {[("dbs/db", "coll")]}
              [("dbs/db/colls/coll", Mock.order1);
               ("dbs/db/colls/coll", Mock.anonymous_order)] false in
  let o := DocumentManagement.ReadDocuments Mock.env Mock.client (State st []) in
  Mock.anonymous_order !! "id" = None /\
  res o = Ok VNone /\
  trace o !! 3%nat = Some (Print "Document Id: {0}" [PVal VNone]).
Proof.
  intros st.
  assert (H : document_client.ReadDocuments Mock.client (collection_link Mock.env)
                (VDict {["maxItemCount" := VInt 10]}) (service (State st []))
              = (Ok [Mock.order1; Mock.anonymous_order], st))
    by (vm_compute; reflexivity).
  split; [reflexivity|].
  exact (ReadDocuments_lists_records_without_id Mock.env Mock.client (State st [])
           [Mock.order1; Mock.anonymous_order] st 1%nat Mock.anonymous_order
           H eq_refl eq_refl).
Defined.

(** X13.  [GetSalesOrderV2] builds its record for every id, touching neither
    the state nor the output (where [GetSalesOrder] raises): the record has
    the id it was given, and no other field depends on that id. *)
Theorem GetSalesOrderV2_builds_for_every_id {S} (E : Env) (document_id : string)
    (s : state S) :
  exists d,
    DocumentManagement.GetSalesOrderV2 E document_id s = Outcome (Ok d) s [] /\
    d !! "id" = Some (VStr document_id) /\
    forall other d',
      DocumentManagement.GetSalesOrderV2 E other s = Outcome (Ok d') s [] ->
      forall k, k ≠ "id" -> d !! k = d' !! k.
Proof.
  eexists. split; [reflexivity|]. split; [apply lookup_insert_eq|].
  intros other d' Hd' k Hk. unfold DocumentManagement.GetSalesOrderV2, ret in Hd'.
  injection Hd' as <-. by rewrite !(lookup_insert_ne _ "id" k).
Qed.
